(** * Question store of server.js: shallow embedding and verified properties

    The server keeps one JSON document, questions.json, and serves four
    request handlers that read it, change it in memory and write it back.
    This file embeds the handlers as programs over the three file-system
    calls they make (fs.access, fs.readFile, fs.writeFile) and proves the
    properties of the store against that embedding.

    Modelling decisions, all local to this header:
    - JavaScript values are the JSON values plus [VUndefined].  A number is a
      double whose value is an integer: [VNum n] is the double nearest to the
      literal [n] ([to_double]), so that numbers beyond 2^53 compare, count
      and print as doubles do.  Fractions and NaN are not values of the
      model, and a stored number is finite: a literal of 2^1024 or more,
      which JSON.parse reads as Infinity, is met in comparisons only.
    - The text of the file is modelled by what readQuestionsFile can tell
      about it: blank text, text on which JSON.parse throws, or text that
      parses to a value.
    - A program is a tree of file-system calls.  Each call is an await point
      of the source; the code between two calls runs without interruption,
      as the event loop of Node guarantees.  A read succeeds when the file
      exists, a write always.  [run] and [exec] take a call as one step;
      [exec_fine] splits a call of fs.writeFile into the two steps it is made
      of, emptying the file and writing the text.
    - The route parameter :id is modelled by the integer whose decimal text
      it is, the form in which a client sends back an id it got from the
      server.
    - The conversions of the language are followed as far as integers go:
      ToPrimitive of arrays and objects, StringToNumber of decimal digits,
      Number::toString, and [==] through them.  A conversion to a number that
      is no finite integer, or that reads a string in another notation, ends
      the program in [Unmodelled]; of the four handlers only the like handler
      can get there, through the likes it finds ([uncounted]). *)

From Stdlib Require Import ZArith Lia Sorted Ascii.
From stdpp Require Import base list strings pretty.

Local Open Scope string_scope.
Local Open Scope Z_scope.

(** ** JavaScript values *)

#[warnings="-register-all"]
Inductive value : Type :=
| VUndefined
| VNull
| VBool (b : bool)
| VNum (n : Z)
| VStr (s : string)
| VArr (l : list value)
| VObj (o : list (string * value)).

(** ToBoolean: undefined, null, false, 0 and the empty string are falsy. *)
Definition truthy (v : value) : bool :=
  match v with
  | VUndefined | VNull => false
  | VBool b => b
  | VNum n => negb (n =? 0)
  | VStr s => negb (String.eqb s "")
  | VArr _ | VObj _ => true
  end.

(** [a || b] *)
Definition or_else (a b : value) : value := if truthy a then a else b.

(** Own property of an object: the first binding of the key. *)
Fixpoint lookup_key (o : list (string * value)) (k : string) : value :=
  match o with
  | [] => VUndefined
  | (k', v) :: r => if String.eqb k' k then v else lookup_key r k
  end.

(** [o.k = v] on an object: an existing key keeps its place, a new key goes
    to the end. *)
Fixpoint assign_key (o : list (string * value)) (k : string) (v : value)
  : list (string * value) :=
  match o with
  | [] => [(k, v)]
  | (k', v') :: r =>
      if String.eqb k' k then (k, v) :: r else (k', v') :: assign_key r k v
  end.

(** What JSON.parse (JSON.stringify v) gives back for a value other than
    undefined: a property holding undefined is dropped from its object, an
    undefined array element becomes null. *)
Fixpoint jsonify (v : value) : value :=
  match v with
  | VArr l =>
      VArr (map (fun x => match x with VUndefined => VNull | _ => jsonify x end) l)
  | VObj o =>
      VObj ((fix fields (o : list (string * value)) : list (string * value) :=
               match o with
               | [] => []
               | (k, x) :: r =>
                   match x with
                   | VUndefined => fields r
                   | _ => (k, jsonify x) :: fields r
                   end
               end) o)
  | _ => v
  end.

Definition jsonify_elem (x : value) : value :=
  match x with VUndefined => VNull | _ => jsonify x end.

Fixpoint jsonify_fields (o : list (string * value)) : list (string * value) :=
  match o with
  | [] => []
  | (k, x) :: r =>
      match x with
      | VUndefined => jsonify_fields r
      | _ => (k, jsonify x) :: jsonify_fields r
      end
  end.

(** A value JSON.parse can return: no undefined anywhere inside. *)
Fixpoint is_json (v : value) : bool :=
  match v with
  | VUndefined => false
  | VArr l => forallb is_json l
  | VObj o => forallb (fun kv => is_json (snd kv)) o
  | _ => true
  end.

(** ** The file and the programs over it *)

(** The text stored in questions.json, as readQuestionsFile sees it. *)
Inductive text : Type :=
| Blank (s : string)       (* s.trim() is empty *)
| Unparsable (s : string)  (* not blank, and JSON.parse throws on it *)
| Json (v : value).        (* any text that JSON.parse turns into v *)

Inductive prog (A : Type) : Type :=
| Ret (a : A)                            (* finished with a result *)
| Throw                                  (* an exception is propagating *)
| Unmodelled                             (* left the number model *)
| Access (k : bool -> prog A)            (* await fs.access(QUESTIONS_FILE) *)
| ReadFile (k : option text -> prog A)   (* await fs.readFile(QUESTIONS_FILE) *)
| WriteFile (t : text) (k : prog A).     (* await fs.writeFile(QUESTIONS_FILE, t) *)

Arguments Ret {A} a.
Arguments Throw {A}.
Arguments Unmodelled {A}.
Arguments Access {A} k.
Arguments ReadFile {A} k.
Arguments WriteFile {A} t k.

Fixpoint bind {A B : Type} (p : prog A) (f : A -> prog B) : prog B :=
  match p with
  | Ret a => f a
  | Throw => Throw
  | Unmodelled => Unmodelled
  | Access k => Access (fun ok => bind (k ok) f)
  | ReadFile k => ReadFile (fun r => bind (k r) f)
  | WriteFile t k => WriteFile t (bind k f)
  end.

#[global] Instance prog_ret : MRet prog := @Ret.
#[global] Instance prog_bind : MBind prog := fun A B f p => bind p f.

(** [try { p } catch { h }] *)
Fixpoint try_catch {A : Type} (p : prog A) (h : prog A) : prog A :=
  match p with
  | Ret a => Ret a
  | Throw => h
  | Unmodelled => Unmodelled
  | Access k => Access (fun ok => try_catch (k ok) h)
  | ReadFile k => ReadFile (fun r => try_catch (k r) h)
  | WriteFile t k => WriteFile t (try_catch k h)
  end.

(** The file system: the file (absent or holding a text) and the history of
    the texts written to it, newest first. *)
Record fsys : Type := mkFs { file : option text; written : list text }.

Definition write (t : text) (fs : fsys) : fsys :=
  {| file := Some t; written := t :: written fs |}.

(** One file-system call of a program. *)
Definition step {A : Type} (p : prog A) (fs : fsys) : prog A * fsys :=
  match p with
  | Access k => (k (bool_decide (is_Some (file fs))), fs)
  | ReadFile k => (k (file fs), fs)
  | WriteFile t k => (k, write t fs)
  | _ => (p, fs)
  end.

(** A program run alone, to its end. *)
Fixpoint run {A : Type} (p : prog A) (fs : fsys) : prog A * fsys :=
  match p with
  | Access k => run (k (bool_decide (is_Some (file fs)))) fs
  | ReadFile k => run (k (file fs)) fs
  | WriteFile t k => run k (write t fs)
  | _ => (p, fs)
  end.

Definition fs_access : prog unit :=
  Access (fun ok => if ok then Ret tt else Throw).

Definition fs_readFile : prog text :=
  ReadFile (fun r => match r with Some t => Ret t | None => Throw end).

(** fs.writeFile rejects data that is not a string. *)
Definition fs_writeFile (data : option text) : prog unit :=
  match data with
  | Some t => WriteFile t (Ret tt)
  | None => Throw
  end.

Definition trim_is_empty (t : text) : bool :=
  match t with Blank _ => true | _ => false end.

Definition JSON_parse (t : text) : prog value :=
  match t with
  | Json v => Ret v
  | Blank _ | Unparsable _ => Throw
  end.

(** JSON.stringify returns undefined for undefined, a text otherwise. *)
Definition JSON_stringify (v : value) : option text :=
  match v with
  | VUndefined => None
  | _ => Some (Json (jsonify v))
  end.

(** ** JavaScript operations used by the handlers *)

(** Property read [v.k], for the names this program reads (questions, id,
    likes, answers and the fields of a request body): null and undefined
    throw a TypeError, and none of these names is defined on an array or a
    primitive. *)
Definition get_prop (v : value) (k : string) : prog value :=
  match v with
  | VUndefined | VNull => Throw
  | VObj o => Ret (lookup_key o k)
  | _ => Ret VUndefined
  end.

(** Property write [v.k = x]: a TypeError on null and undefined, ignored on a
    primitive (the module is not in strict mode).  On an array it would add a
    named property, which the values of the model do not have; no handler
    gets there, the values it writes to being objects. *)
Definition set_prop (v : value) (k : string) (x : value) : prog value :=
  match v with
  | VUndefined | VNull => Throw
  | VObj o => Ret (VObj (assign_key o k x))
  | VArr _ => Unmodelled
  | _ => Ret v
  end.

(** The receiver of [.push] and [.findIndex]: these methods exist on arrays
    only, calling them on anything else is a TypeError. *)
Definition as_array (v : value) : prog (list value) :=
  match v with
  | VArr l => Ret l
  | _ => Throw
  end.

(** *** Numbers

    A JavaScript number is a double.  [VNum n] is the number that the literal
    [n] denotes, in a JSON text as in a program: the double nearest to the
    integer [n]. *)

(** The nearest integer with a significand of 53 bits, ties going to the
    even significand. *)
Definition round53 (n : Z) : Z :=
  let a := Z.abs n in
  if a <? 2 ^ 53 then n
  else
    let e := Z.log2 a - 52 in
    let q := a / 2 ^ e in
    let r := a mod 2 ^ e in
    let half := 2 ^ (e - 1) in
    let q' := if (half <? r) || ((r =? half) && Z.odd q) then q + 1 else q in
    Z.sgn n * (q' * 2 ^ e).

(** Every finite double is below 2^1024 in absolute value. *)
Definition INFINITY : Z := 2 ^ 1024.

(** The double that the integer literal [n] denotes; plus and minus
    Infinity are [INFINITY] and [- INFINITY]. *)
Definition to_double (n : Z) : Z :=
  let r := round53 n in
  if Z.abs r <? INFINITY then r else Z.sgn r * INFINITY.

Definition is_finite (x : Z) : bool := Z.abs x <? INFINITY.

(** [x + 1] on a finite double. *)
Definition js_succ (x : Z) : Z := round53 (x + 1).

Definition digit_of (c : Ascii.ascii) : option Z :=
  let n := Z.of_nat (Ascii.nat_of_ascii c) in
  if (48 <=? n) && (n <=? 57) then Some (n - 48) else None.

Fixpoint digits_value (s : string) (acc : Z) : option Z :=
  match s with
  | EmptyString => Some acc
  | String c r =>
      match digit_of c with
      | Some d => digits_value r (10 * acc + d)
      | None => None
      end
  end.

(** StringToNumber, on the empty text (0) and on a text of decimal digits
    with an optional sign: the integer literal whose double is the result.
    [None] on any other text (blanks, a fraction, an exponent, another radix,
    Infinity, or a text that is no number). *)
Definition string_number (s : string) : option Z :=
  match s with
  | EmptyString => Some 0
  | String c r =>
      if Ascii.eqb c "+"%char then
        match r with EmptyString => None | _ => digits_value r 0 end
      else if Ascii.eqb c "-"%char then
        match r with
        | EmptyString => None
        | _ => option_map Z.opp (digits_value r 0)
        end
      else digits_value s 0
  end.

Definition decimal_length (x : Z) : Z := Z.of_nat (String.length (pretty x)).

(** The shortest decimal [s * 10^(n - k)], with [s] of [k] digits, whose
    double is [x] (for [x > 0]): the pair [(s, n)].  Lengths are tried from
    [k] upwards; among the [s] of one length the one nearest to [x] is taken,
    and of two equally near ones the even one. *)
Fixpoint shortest_from (fuel : nat) (k : Z) (x : Z) : option (Z * Z) :=
  match fuel with
  | O => None
  | S fuel' =>
      let dx := decimal_length x in
      if dx <? k then None
      else
        let p := 10 ^ (dx - k) in
        let s1 := x / p in
        let s2 := s1 + 1 in
        let ok1 := to_double (s1 * p) =? x in
        let ok2 := to_double (s2 * p) =? x in
        let d1 := x - s1 * p in
        let d2 := s2 * p - x in
        let up := Some (if s2 =? 10 ^ k then (10 ^ (k - 1), dx + 1) else (s2, dx)) in
        let down := Some (s1, dx) in
        if ok1 && ok2 then
          if d1 <? d2 then down
          else if d2 <? d1 then up
          else if Z.even s1 then down else up
        else if ok1 then down
        else if ok2 then up
        else shortest_from fuel' (k + 1) x
  end.

Fixpoint zeros (n : nat) : string :=
  match n with
  | O => ""
  | S m => "0" +:+ zeros m
  end.

(** Number::toString of a double [x >= 2^53]: the digits of the shortest
    decimal, followed by zeros up to 21 digits, in exponent notation
    beyond. *)
Definition format_double (x : Z) : string :=
  match shortest_from 17 1 x with
  | None => pretty x
  | Some (s, n) =>
      let ds := pretty s in
      let k := Z.of_nat (String.length ds) in
      if n <=? 21 then ds +:+ zeros (Z.to_nat (n - k))
      else
        match ds with
        | String c EmptyString => ds +:+ "e+" +:+ pretty (n - 1)
        | String c rest => String c ("." +:+ rest) +:+ "e+" +:+ pretty (n - 1)
        | EmptyString => pretty x
        end
  end.

(** Number::toString of the double of [n]. *)
Definition number_to_string (n : Z) : string :=
  let x := to_double n in
  if Z.abs x <? 2 ^ 53 then pretty x
  else if INFINITY <=? x then "Infinity"
  else if x <=? - INFINITY then "-Infinity"
  else if 0 <? x then format_double x
  else "-" +:+ format_double (- x).

Definition has_key (o : list (string * value)) (k : string) : bool :=
  existsb (fun kv => String.eqb kv.1 k) o.

(** ToPrimitive of an array or an object, and ToString of any value as an
    element of an array.  An array is converted by Array.prototype.join: its
    elements in order, separated by commas, null and undefined giving the
    empty text.  An object parsed from JSON is converted by
    Object.prototype.toString, unless it has a toString property of its own:
    that property is not a function, and the conversion is a TypeError. *)
Fixpoint to_text (v : value) : prog string :=
  match v with
  | VUndefined => Ret "undefined"
  | VNull => Ret "null"
  | VBool b => Ret (if b then "true" else "false")
  | VNum n => Ret (number_to_string n)
  | VStr s => Ret s
  | VArr l =>
      (fix join (l : list value) : prog string :=
         match l with
         | [] => Ret ""
         | x :: rest =>
             bind (match x with
                   | VUndefined | VNull => Ret ""
                   | _ => to_text x
                   end)
               (fun s =>
                  match rest with
                  | [] => Ret s
                  | _ => bind (join rest) (fun t => Ret (s +:+ "," +:+ t))
                  end)
         end) l
  | VObj o => if has_key o "toString" then Throw else Ret "[object Object]"
  end.

(** ToNumber.  A string, and an array or an object through its primitive, is
    converted where [string_number] applies.  Results that are no finite
    integer (NaN, Infinity, fractions) are not modelled. *)
Definition ToNumber (v : value) : prog Z :=
  let of_text := fun s : string =>
    match string_number s with
    | Some n => if is_finite (to_double n) then Ret (to_double n) else Unmodelled
    | None => Unmodelled
    end in
  match v with
  | VNum n => if is_finite (to_double n) then Ret (to_double n) else Unmodelled
  | VBool b => Ret (if b then 1 else 0)
  | VNull => Ret 0
  | VUndefined => Unmodelled
  | VStr s => of_text s
  | VArr _ | VObj _ => s ← to_text v; of_text s
  end.

(** [v == id], where [id] is the route parameter, the decimal text of the
    integer [id].  A number or a boolean is compared with the number of that
    text, a string with the text itself, an array or an object through its
    primitive, which is a string; null and undefined are not equal to it. *)
Definition loose_eq (v : value) (id : Z) : prog bool :=
  match v with
  | VUndefined | VNull => Ret false
  | VBool b => Ret ((if b then 1 else 0) =? to_double id)
  | VNum n => Ret (to_double n =? to_double id)
  | VStr s => Ret (String.eqb s (pretty id))
  | VArr _ | VObj _ => s ← to_text v; Ret (String.eqb s (pretty id))
  end.

(** [questions.findIndex(q => q.id == id)], counting from [i]; [None] is the
    result -1. *)
Fixpoint findIndex (qs : list value) (id : Z) (i : nat) : prog (option nat) :=
  match qs with
  | [] => Ret None
  | q :: rest =>
      qid ← get_prop q "id";
      found ← loose_eq qid id;
      if found : bool then Ret (Some i) else findIndex rest id (S i)
  end.

(** The effect on [d] of changing, in place, the value that [d.k] refers to. *)
Definition with_prop (d : value) (k : string) (x : value) : value :=
  match d with
  | VObj o => VObj (assign_key o k x)
  | _ => d
  end.

(** ** The store *)

Definition empty_collection : value := VObj [("questions", VArr [])].

Definition readQuestionsFile : prog value :=
  try_catch
    (data ← fs_readFile;
     if trim_is_empty data then Ret empty_collection else JSON_parse data)
    (Ret empty_collection).

Definition writeQuestionsFile (questionsData : value) : prog unit :=
  fs_writeFile (JSON_stringify questionsData).

Definition initializeQuestionsFile : prog unit :=
  try_catch fs_access (fs_writeFile (JSON_stringify empty_collection)).

(** ** The request handlers *)

Record request : Type := mkReq {
  req_body : value;        (* req.body *)
  req_id : Z;              (* req.params.id *)
  req_ip : value;          (* req.ip *)
  req_user_agent : value   (* req.headers['user-agent'] *)
}.

Record response : Type := mkRes { status : Z; body : value }.

Definition failure (code : Z) (message : string) : response :=
  mkRes code (VObj [("success", VBool false); ("message", VStr message)]).

Definition internal_error : response := failure 500 "Internal server error".

(** The record built by POST /api/submit-question; [now] is the reading of
    Date.now(), [iso] that of new Date().toISOString(). *)
Definition newQuestion (req : request) (now : Z) (iso : string)
    (name email question timestamp ip userAgent : value) : value :=
  VObj [("id", VNum now);
        ("name", or_else name (VStr "Anonymous"));
        ("email", or_else email (VStr "anonymous@example.com"));
        ("question", question);
        ("timestamp", or_else timestamp (VStr iso));
        ("ip", or_else ip (req_ip req));
        ("userAgent", or_else userAgent (req_user_agent req));
        ("status", VStr "pending");
        ("response", VNull);
        ("respondedAt", VNull);
        ("likes", VNum 0);
        ("answers", VArr [])].

(** POST /api/submit-question *)
Definition submitQuestion (req : request) (now : Z) (iso : string) : prog response :=
  try_catch
    (name ← get_prop (req_body req) "name";
     email ← get_prop (req_body req) "email";
     question ← get_prop (req_body req) "question";
     timestamp ← get_prop (req_body req) "timestamp";
     ip ← get_prop (req_body req) "ip";
     userAgent ← get_prop (req_body req) "userAgent";
     if negb (truthy question) then Ret (failure 400 "Question is required")
     else
       questionsData ← readQuestionsFile;
       let q := newQuestion req now iso name email question timestamp ip userAgent in
       questions ← get_prop questionsData "questions";
       qs ← as_array questions;
       let questionsData := with_prop questionsData "questions" (VArr (qs ++ [q])) in
       _ ← writeQuestionsFile questionsData;
       qid ← get_prop q "id";
       Ret (mkRes 200 (VObj [("success", VBool true);
                             ("message", VStr "Question submitted successfully");
                             ("questionId", qid)])))
    (Ret internal_error).

(** GET /api/questions *)
Definition listQuestions : prog response :=
  try_catch
    (questionsData ← readQuestionsFile;
     questions ← get_prop questionsData "questions";
     Ret (mkRes 200 (or_else questions (VArr []))))
    (Ret internal_error).

(** The record built by POST /api/questions/:id/answer. *)
Definition newAnswer (now : Z) (iso : string) (answer author isOwner : value) : value :=
  VObj [("id", VNum now);
        ("content", answer);
        ("author", or_else author (VStr "Anonymous"));
        ("isOwner", or_else isOwner (VBool false));
        ("date", VStr iso);
        ("answers", VArr [])].

(** POST /api/questions/:id/answer; [iso] and [iso'] are the two readings of
    new Date().toISOString(), for the answer and for respondedAt. *)
Definition addAnswer (req : request) (now : Z) (iso iso' : string) : prog response :=
  try_catch
    (let id := req_id req in
     answer ← get_prop (req_body req) "answer";
     author ← get_prop (req_body req) "author";
     isOwner ← get_prop (req_body req) "isOwner";
     if negb (truthy answer) then Ret (failure 400 "Answer is required")
     else
       questionsData ← readQuestionsFile;
       questions ← get_prop questionsData "questions";
       qs ← as_array questions;
       questionIndex ← findIndex qs id 0;
       match questionIndex with
       | None => Ret (failure 404 "Question not found")
       | Some i =>
           let q := default VUndefined (qs !! i) in
           let a := newAnswer now iso answer author isOwner in
           answers ← get_prop q "answers";
           q ← (if negb (truthy answers) then set_prop q "answers" (VArr []) else Ret q);
           answers ← get_prop q "answers";
           l ← as_array answers;
           let q := with_prop q "answers" (VArr (l ++ [a])) in
           q ← (if truthy isOwner then
                  q ← set_prop q "status" (VStr "answered");
                  q ← set_prop q "response" answer;
                  set_prop q "respondedAt" (VStr iso')
                else Ret q);
           let questionsData := with_prop questionsData "questions" (VArr (<[i := q]> qs)) in
           _ ← writeQuestionsFile questionsData;
           Ret (mkRes 200 (VObj [("success", VBool true);
                                 ("message", VStr "Answer added successfully")]))
       end)
    (Ret internal_error).

(** POST /api/questions/:id/like *)
Definition likeQuestion (req : request) : prog response :=
  try_catch
    (let id := req_id req in
     questionsData ← readQuestionsFile;
     questions ← get_prop questionsData "questions";
     qs ← as_array questions;
     questionIndex ← findIndex qs id 0;
     match questionIndex with
     | None => Ret (failure 404 "Question not found")
     | Some i =>
         let q := default VUndefined (qs !! i) in
         likes ← get_prop q "likes";
         q ← (if negb (truthy likes) then set_prop q "likes" (VNum 0) else Ret q);
         likes ← get_prop q "likes";
         n ← ToNumber likes;
         q ← set_prop q "likes" (VNum (js_succ n));
         let questionsData := with_prop questionsData "questions" (VArr (<[i := q]> qs)) in
         _ ← writeQuestionsFile questionsData;
         likes ← get_prop q "likes";
         Ret (mkRes 200 (VObj [("success", VBool true); ("likes", likes)]))
     end)
    (Ret internal_error).

(** ** Several requests *)

(** Requests in flight: each is the rest of its handler. *)
Definition pool : Type := list (prog response).


(** Serial execution: each request runs to its end before the next starts. *)
Fixpoint run_all (ps : pool) (fs : fsys) : pool * fsys :=
  match ps with
  | [] => ([], fs)
  | p :: rest =>
      let r := run p fs in
      let rs := run_all rest r.2 in
      (r.1 :: rs.1, rs.2)
  end.


(** *** A write in two steps

    fs.writeFile opens the file for writing, which empties it, and writes the
    text afterwards; a call of another request that completes in between
    finds the file empty.  [exec] takes a call of fs.writeFile as one step;
    [exec_fine] splits it in these two. *)

(** A request in flight: at a call of its handler, or inside fs.writeFile
    with the file emptied and the text [t] still to be written. *)
Inductive inflight : Type :=
| Running (p : prog response)
| Writing (t : text) (k : prog response).

(** The file once it is opened for writing. *)
Definition truncate (fs : fsys) : fsys :=
  {| file := Some (Blank ""); written := written fs |}.

Definition step_fine (c : inflight) (fs : fsys) : inflight * fsys :=
  match c with
  | Running (WriteFile t k) => (Writing t k, truncate fs)
  | Running p => (Running (step p fs).1, (step p fs).2)
  | Writing t k => (Running k, write t fs)
  end.

Fixpoint exec_fine (sched : list nat) (ts : list inflight) (fs : fsys)
  : list inflight * fsys :=
  match sched with
  | [] => (ts, fs)
  | i :: rest =>
      match ts !! i with
      | Some c => exec_fine rest (<[i := (step_fine c fs).1]> ts) (step_fine c fs).2
      | None => exec_fine rest ts fs
      end
  end.

(** ** Vocabulary of the statements *)

(** The Collection that a handler gets from readQuestionsFile. *)
Definition load (fs : fsys) : value :=
  match file fs with
  | Some (Json v) => v
  | _ => empty_collection
  end.

(** No stored document, or one that does not parse. *)
Definition unreadable (fs : fsys) : bool :=
  match file fs with
  | Some (Json _) => false
  | _ => true
  end.

(** A field of the request body; undefined when it is missing. *)
Definition field (req : request) (k : string) : value :=
  match req_body req with
  | VObj o => lookup_key o k
  | _ => VUndefined
  end.

(** The body can be destructured: it is neither undefined nor null. *)
Definition has_body (req : request) : bool :=
  match req_body req with
  | VUndefined | VNull => false
  | _ => true
  end.

(** [q.id == id], as findIndex evaluates it on an element. *)
Definition id_matches (q : value) (id : Z) : prog bool :=
  qid ← get_prop q "id"; loose_eq qid id.

(** The questionId of a successful reply to a submission. *)
Definition question_id_of (r : prog response) : option Z :=
  match r with
  | Ret (mkRes 200 (VObj o)) =>
      match lookup_key o "questionId" with
      | VNum n => Some n
      | _ => None
      end
  | _ => None
  end.

(** The likes field of the question at position [i] of a Collection. *)
Definition likes_at (d : value) (i : nat) : value :=
  match d with
  | VObj o =>
      match lookup_key o "questions" with
      | VArr qs =>
          match qs !! i with
          | Some (VObj q) => lookup_key q "likes"
          | _ => VUndefined
          end
      | _ => VUndefined
      end
  | _ => VUndefined
  end.

(** The largest integer up to which a double counts exactly. *)
Definition MAX_SAFE_INTEGER : Z := 2 ^ 53 - 1.

(** A submission: the request with its two clock readings. *)
Record submission : Type := mkSub {
  sub_req : request;
  sub_now : Z;        (* Date.now() *)
  sub_iso : string    (* new Date().toISOString() *)
}.

Definition submit (s : submission) : prog response :=
  submitQuestion (sub_req s) (sub_now s) (sub_iso s).

(** A program that has no file-system call left: it ended in a result, in an
    exception or outside the model. *)
Definition final {A} (p : prog A) : bool :=
  match p with
  | Ret _ | Throw | Unmodelled => true
  | _ => false
  end.

(** A program that ends within [n] file-system calls, whatever the file
    holds at each call. *)
Fixpoint within {A} (n : nat) (p : prog A) : Prop :=
  match n with
  | O => final p = true
  | S m => forall fs, within m (step p fs).1
  end.

(** ** Sample data *)

Definition no_file : fsys := mkFs None [].

Definition store_of (d : value) : fsys := mkFs (Some (Json d)) [].

(** A request whose body is [b], for the question with id [id]. *)
Definition request_of (b : list (string * value)) (id : Z) : request :=
  mkReq (VObj b) id (VStr "203.0.113.7") (VStr "curl/8.5.0").

Definition ask_why : request := request_of [("question", VStr "Why?")] 0.


(** A stored question with id 7 and the given extra fields. *)
Definition question7 (more : list (string * value)) : list (string * value) :=
  [("id", VNum 7); ("question", VStr "Why?"); ("status", VStr "pending");
   ("response", VNull); ("respondedAt", VNull)] ++ more.

Definition liked5 : list (string * value) :=
  question7 [("likes", VNum 5); ("answers", VArr [])].

Definition never_liked : list (string * value) :=
  question7 [("answers", VArr [])].

Definition collection_of (qs : list value) : value := VObj [("questions", VArr qs)].

(** ** Start-up and the ways a request can end *)

(** startServer: the file is initialised, then the server listens (which
    makes no call on the file). *)
Definition startServer : prog unit :=
  _ ← initializeQuestionsFile; Ret tt.

(** The ways a handler that changes the Collection replies when started on
    the file system [fs]: 400, 404 or 500 with the file system as it was, or
    200 after one write of a JSON document that has a questions array. *)
Inductive handled (fs : fsys) : prog response * fsys -> Prop :=
| handled_refused (res : response) :
    status res = 400 \/ status res = 404 \/ status res = 500 ->
    handled fs (Ret res, fs)
| handled_done (res : response) (d : value) (l : list value) :
    status res = 200 ->
    is_json d = true ->
    get_prop d "questions" = Ret (VArr l) ->
    handled fs (Ret res, write (Json d) fs).

(** The one case in which the number model does not follow a handler: the
    like handler finds the question [o], and the likes of [o] is a truthy
    value that [ToNumber] does not convert (a string in another notation than
    decimal digits, an array or an object whose text is such a string, a
    number that is not finite). *)
Definition uncounted (req : request) (fs : fsys) : Prop :=
  exists (qs : list value) (i : nat) (o : list (string * value)),
    get_prop (load fs) "questions" = Ret (VArr qs)
    /\ findIndex qs (req_id req) 0 = Ret (Some i)
    /\ qs !! i = Some (VObj o)
    /\ truthy (lookup_key o "likes") = true
    /\ ToNumber (lookup_key o "likes") = Unmodelled.

(** A stored question with id [n] and the given other fields. *)
Definition question_with_id (n : Z) (more : list (string * value)) : value :=
  VObj (("id", VNum n) :: more).


(** ** Laws of programs *)


Lemma run_bind {A B} (p : prog A) (f : A -> prog B) (fs : fsys) :
  run (bind p f) fs = run (bind (run p fs).1 f) (run p fs).2.
Proof.
  revert fs. induction p as [a| | |k IH|k IH|t k IH]; intros fs; simpl; auto.
Qed.

Lemma run_try_catch {A} (p h : prog A) (fs : fsys) :
  run (try_catch p h) fs = run (try_catch (run p fs).1 h) (run p fs).2.
Proof.
  revert fs. induction p as [a| | |k IH|k IH|t k IH]; intros fs; simpl; auto.
Qed.

Lemma run_final {A} (p : prog A) (fs : fsys) : final (run p fs).1 = true.
Proof.
  revert fs. induction p as [a| | |k IH|k IH|t k IH]; intros fs; simpl; auto.
Qed.

Lemma run_read (fs : fsys) : run readQuestionsFile fs = (Ret (load fs), fs).
Proof.
  unfold readQuestionsFile, load. simpl.
  destruct (file fs) as [[s|s|v]|]; reflexivity.
Qed.

Lemma run_read_then {A} (k : value -> prog A) (h : prog A) (fs : fsys) :
  run (try_catch (bind readQuestionsFile k) h) fs = run (try_catch (k (load fs)) h) fs.
Proof.
  rewrite run_try_catch, run_bind, run_read. simpl.
  now rewrite <- run_try_catch.
Qed.

(** ** Values: induction, properties and JSON round trip *)

Lemma value_nested_ind (P : value -> Prop) :
  P VUndefined -> P VNull -> (forall b, P (VBool b)) -> (forall n, P (VNum n)) ->
  (forall s, P (VStr s)) ->
  (forall l, Forall P l -> P (VArr l)) ->
  (forall o, Forall (fun kv => P kv.2) o -> P (VObj o)) ->
  forall v, P v.
Proof.
  intros Hu Hn Hb Hz Hs Ha Ho.
  fix IH 1. intros [| |b|n|s|l|o];
    [exact Hu | exact Hn | apply Hb | apply Hz | apply Hs | | ].
  - apply Ha. induction l as [|x l IHl]; constructor; [apply IH | exact IHl].
  - apply Ho. induction o as [|[k x] o IHo]; constructor; [apply IH | exact IHo].
Qed.

Lemma jsonify_VObj (o : list (string * value)) :
  jsonify (VObj o) = VObj (jsonify_fields o).
Proof. reflexivity. Qed.

Lemma jsonify_VArr (l : list value) :
  jsonify (VArr l) = VArr (map jsonify_elem l).
Proof. reflexivity. Qed.

Lemma jsonify_elem_defined (x : value) :
  x <> VUndefined -> jsonify_elem x = jsonify x.
Proof. destruct x; intros H; try reflexivity. now contradiction H. Qed.

Lemma is_json_defined (x : value) : is_json x = true -> x <> VUndefined.
Proof. intros H ->. discriminate H. Qed.

Lemma jsonify_json (v : value) : is_json v = true -> jsonify v = v.
Proof.
  induction v as [| |b|n|s|l IH|o IH] using value_nested_ind; intros H;
    try reflexivity; try discriminate H.
  - rewrite jsonify_VArr. f_equal. simpl in H.
    induction IH as [|x l Hx _ IHl]; [reflexivity|].
    simpl in H. apply andb_prop in H as [H1 H2]. simpl.
    rewrite jsonify_elem_defined by now apply is_json_defined.
    now rewrite Hx, IHl.
  - rewrite jsonify_VObj. f_equal. simpl in H.
    induction IH as [|[k x] o Hx _ IHo]; [reflexivity|].
    simpl in H. apply andb_prop in H as [H1 H2]. simpl in *.
    rewrite Hx, IHo by assumption.
    destruct x; try reflexivity. discriminate H1.
Qed.

Lemma jsonify_elem_json (x : value) : is_json x = true -> jsonify_elem x = x.
Proof.
  intros H. rewrite jsonify_elem_defined by now apply is_json_defined.
  now apply jsonify_json.
Qed.

Lemma map_jsonify_elem_json (l : list value) :
  forallb is_json l = true -> map jsonify_elem l = l.
Proof.
  induction l as [|x l IH]; simpl; intros H; [reflexivity|].
  apply andb_prop in H as [H1 H2]. now rewrite jsonify_elem_json, IH.
Qed.

(** Serialising always produces a JSON value. *)
Lemma is_json_jsonify (v : value) : v <> VUndefined -> is_json (jsonify v) = true.
Proof.
  induction v as [| |b|n|s|l IH|o IH] using value_nested_ind; intros H;
    try reflexivity; try (now contradiction H).
  - rewrite jsonify_VArr. simpl. clear H.
    induction IH as [|x l Hx _ IHl]; [reflexivity|]. simpl.
    rewrite IHl, andb_true_r.
    destruct x; try reflexivity; apply Hx; discriminate.
  - rewrite jsonify_VObj. simpl. clear H.
    induction IH as [|[k x] o Hx _ IHo]; [reflexivity|]. simpl in *.
    destruct x; try exact IHo; simpl; rewrite IHo, andb_true_r;
      try reflexivity; apply Hx; discriminate.
Qed.

Lemma lookup_key_json (o : list (string * value)) (k : string) :
  forallb (fun kv => is_json kv.2) o = true ->
  lookup_key o k = VUndefined \/ is_json (lookup_key o k) = true.
Proof.
  induction o as [|[k' x] o IH]; simpl; intros H; [now left|].
  apply andb_prop in H as [H1 H2].
  destruct (String.eqb k' k); [now right | now apply IH].
Qed.

Lemma lookup_assign_eq (o : list (string * value)) (k : string) (x : value) :
  lookup_key (assign_key o k x) k = x.
Proof.
  induction o as [|[k' x'] o IH]; simpl.
  - now rewrite String.eqb_refl.
  - destruct (String.eqb k' k) eqn:E; simpl.
    + now rewrite String.eqb_refl.
    + now rewrite E.
Qed.


Lemma assign_assign (o : list (string * value)) (k : string) (x y : value) :
  assign_key (assign_key o k x) k y = assign_key o k y.
Proof.
  induction o as [|[k' x'] o IH]; simpl.
  - now rewrite String.eqb_refl.
  - destruct (String.eqb k' k) eqn:E; simpl.
    + now rewrite String.eqb_refl.
    + now rewrite E, IH.
Qed.

Lemma is_json_assign (o : list (string * value)) (k : string) (x : value) :
  forallb (fun kv => is_json kv.2) o = true -> is_json x = true ->
  forallb (fun kv => is_json kv.2) (assign_key o k x) = true.
Proof.
  intros Ho Hx. induction o as [|[k' x'] o IH]; simpl in *.
  - now rewrite Hx.
  - apply andb_prop in Ho as [H1 H2].
    destruct (String.eqb k' k); simpl; [now rewrite Hx, H2 | now rewrite H1, IH].
Qed.

Lemma jsonify_fields_assign (o : list (string * value)) (k : string) (x : value) :
  forallb (fun kv => is_json kv.2) o = true -> x <> VUndefined ->
  jsonify_fields (assign_key o k x) = assign_key o k (jsonify x).
Proof.
  intros Ho Hx. induction o as [|[k' x'] o IH]; simpl in *.
  - destruct x; try reflexivity. now contradiction Hx.
  - apply andb_prop in Ho as [H1 H2].
    pose proof (jsonify_json (VObj o) H2) as Hid. rewrite jsonify_VObj in Hid.
    injection Hid as Hid.
    destruct (String.eqb k' k); simpl.
    + rewrite Hid. destruct x; try reflexivity. now contradiction Hx.
    + rewrite IH by assumption. rewrite (jsonify_json x' H1).
      destruct x'; try reflexivity. discriminate H1.
Qed.

Lemma jsonify_with_prop (d : value) (k : string) (x : value) :
  is_json d = true -> x <> VUndefined ->
  jsonify (with_prop d k x) = with_prop d k (jsonify x).
Proof.
  intros Hd Hx. destruct d; simpl with_prop; try now apply jsonify_json.
  rewrite jsonify_VObj. now rewrite jsonify_fields_assign.
Qed.

Lemma is_json_insert (l : list value) (i : nat) (x : value) :
  forallb is_json l = true -> is_json x = true ->
  forallb is_json (<[i := x]> l) = true.
Proof.
  revert i. induction l as [|y l IH]; intros i Hl Hx; [reflexivity|].
  simpl in Hl. apply andb_prop in Hl as [H1 H2].
  destruct i; simpl; [now rewrite Hx, H2 | now rewrite H1, IH].
Qed.

Lemma is_json_lookup (l : list value) (i : nat) (x : value) :
  forallb is_json l = true -> l !! i = Some x -> is_json x = true.
Proof.
  revert i. induction l as [|y l IH]; intros i Hl Hi; [discriminate|].
  simpl in Hl. apply andb_prop in Hl as [H1 H2].
  destruct i; simpl in Hi; [now injection Hi as <- | eauto].
Qed.

(** ** Reading the request and the Collection *)

Lemma get_prop_field (req : request) (k : string) :
  has_body req = true -> get_prop (req_body req) k = Ret (field req k).
Proof.
  unfold has_body, field. destruct (req_body req); intros H;
    try discriminate H; reflexivity.
Qed.

Lemma get_prop_array_inv (d : value) (k : string) (qs : list value) :
  get_prop d k = Ret (VArr qs) ->
  exists o, d = VObj o /\ lookup_key o k = VArr qs.
Proof.
  destruct d; simpl; intros H; try discriminate H.
  injection H as H. eauto.
Qed.

Lemma run_submit (req : request) (now : Z) (iso : string) (fs : fsys)
    (qs : list value) :
  has_body req = true ->
  truthy (field req "question") = true ->
  get_prop (load fs) "questions" = Ret (VArr qs) ->
  run (submitQuestion req now iso) fs =
    (Ret (mkRes 200 (VObj [("success", VBool true);
                           ("message", VStr "Question submitted successfully");
                           ("questionId", VNum now)])),
     write (Json (jsonify (with_prop (load fs) "questions"
              (VArr (qs ++ [newQuestion req now iso (field req "name")
                              (field req "email") (field req "question")
                              (field req "timestamp") (field req "ip")
                              (field req "userAgent")]))))) fs).
Proof.
  intros Hb Hq Hd. unfold submitQuestion, mbind, prog_bind.
  rewrite !get_prop_field by assumption. cbn [bind].
  rewrite Hq. cbn [negb]. rewrite run_read_then, Hd. cbn [bind as_array].
  destruct (get_prop_array_inv _ _ _ Hd) as (o & -> & Ho).
  reflexivity.
Qed.

Lemma lookup_jsonify_fields_cons (k' : string) (x : value)
    (r : list (string * value)) (k : string) :
  lookup_key (jsonify_fields ((k', x) :: r)) k =
    if String.eqb k' k
    then match x with
         | VUndefined => lookup_key (jsonify_fields r) k
         | _ => jsonify x
         end
    else lookup_key (jsonify_fields r) k.
Proof.
  destruct x; simpl; destruct (String.eqb k' k); reflexivity.
Qed.


Lemma newQuestion_defined (req : request) (now : Z) (iso : string)
    (name email question timestamp ip userAgent : value) :
  newQuestion req now iso name email question timestamp ip userAgent <> VUndefined.
Proof. discriminate. Qed.

Lemma jsonify_append (d : value) (qs : list value) (q : value) :
  is_json d = true ->
  get_prop d "questions" = Ret (VArr qs) ->
  q <> VUndefined ->
  jsonify (with_prop d "questions" (VArr (qs ++ [q]))) =
    with_prop d "questions" (VArr (qs ++ [jsonify q])).
Proof.
  intros Hd Hqs Hq.
  rewrite jsonify_with_prop by (assumption || discriminate).
  f_equal. rewrite jsonify_VArr, map_app. simpl.
  rewrite jsonify_elem_defined by assumption.
  destruct (get_prop_array_inv _ _ _ Hqs) as (o & -> & Ho).
  simpl in Hd. destruct (lookup_key_json o "questions" Hd) as [E|E];
    rewrite Ho in E; [discriminate E|].
  simpl in E. now rewrite map_jsonify_elem_json.
Qed.


Lemma truthy_defined (x : value) : truthy x = true -> x <> VUndefined.
Proof. intros H ->. discriminate H. Qed.




Lemma load_unreadable (fs : fsys) :
  unreadable fs = true -> load fs = empty_collection.
Proof.
  unfold unreadable, load. destruct (file fs) as [[s|s|v]|]; intros H;
    try reflexivity. discriminate H.
Qed.



(** ** Looking a question up *)

Lemma findIndex_cons (q : value) (rest : list value) (id : Z) (n : nat) :
  findIndex (q :: rest) id n =
    bind (id_matches q id)
      (fun found : bool => if found then Ret (Some n) else findIndex rest id (S n)).
Proof.
  unfold id_matches, mbind, prog_bind.
  destruct q; reflexivity.
Qed.

Lemma final_bind {A B} (p : prog A) (f : A -> prog B) :
  final p = true -> (forall a, final (f a) = true) -> final (bind p f) = true.
Proof. destruct p; intros Hp Hf; try discriminate Hp; simpl; auto. Qed.

(** The conversions make no file-system call. *)
Lemma final_to_text (v : value) : final (to_text v) = true.
Proof.
  induction v as [| |b|n|s|l IH|o IH] using value_nested_ind; try reflexivity.
  - simpl. induction IH as [|x l Hx _ IHl]; [reflexivity|].
    apply final_bind.
    + destruct x; try reflexivity; exact Hx.
    + intros s. destruct l; [reflexivity|].
      apply final_bind; [exact IHl | reflexivity].
  - simpl. now destruct (has_key o "toString").
Qed.

Lemma final_loose_eq (v : value) (id : Z) : final (loose_eq v id) = true.
Proof.
  destruct v; try reflexivity;
    apply final_bind; try reflexivity; apply final_to_text.
Qed.

Lemma final_cases {A} (p : prog A) :
  final p = true -> (exists a, p = Ret a) \/ p = Throw \/ p = Unmodelled.
Proof. destruct p; intros H; try discriminate H; eauto. Qed.

(** id_matches makes no file-system call. *)
Lemma id_matches_final (q : value) (id : Z) :
  id_matches q id = Throw \/ id_matches q id = Unmodelled \/
  exists b, id_matches q id = Ret b.
Proof.
  assert (H : final (id_matches q id) = true).
  { unfold id_matches, mbind, prog_bind. apply final_bind.
    - now destruct q.
    - intros v. apply final_loose_eq. }
  destruct (final_cases _ H) as [[b E]|[E|E]]; eauto.
Qed.

(** The element that findIndex finds is an object whose id matches. *)
Lemma findIndex_found (qs : list value) (id : Z) (n i : nat) :
  findIndex qs id n = Ret (Some i) ->
  exists o, qs !! (i - n)%nat = Some (VObj o) /\ (n <= i)%nat /\
            loose_eq (lookup_key o "id") id = Ret true.
Proof.
  revert n. induction qs as [|q rest IH]; intros n H; [discriminate H|].
  rewrite findIndex_cons in H.
  destruct (id_matches_final q id) as [E|[E|[[|] E]]]; rewrite E in H;
    simpl in H; try discriminate H.
  - injection H as <-. rewrite Nat.sub_diag. simpl.
    unfold id_matches, mbind, prog_bind in E.
    destruct q as [| |b|m|s|l|o]; simpl in E; try discriminate E.
    exists o. repeat split; [lia|exact E].
  - destruct (IH _ H) as (o & Ho & Hle & Hm).
    exists o. repeat split; [|lia|exact Hm].
    replace (i - n)%nat with (S (i - S n)) by lia. exact Ho.
Qed.

(** findIndex answers -1 exactly when it compares every element and none matches. *)
Lemma findIndex_None (qs : list value) (id : Z) (n : nat) :
  findIndex qs id n = Ret None <->
  Forall (fun q => id_matches q id = Ret false) qs.
Proof.
  revert n. induction qs as [|q rest IH]; intros n.
  - split; [constructor | reflexivity].
  - rewrite findIndex_cons. split.
    + intros H. destruct (id_matches_final q id) as [E|[E|[[|] E]]];
        rewrite E in H; simpl in H; try discriminate H.
      constructor; [exact E | now apply (IH (S n))].
    + intros H. inversion H as [|? ? Hq Hrest]; subst.
      rewrite Hq. simpl. now apply IH.
Qed.

Lemma is_json_with_prop (d : value) (k : string) (x : value) :
  is_json d = true -> is_json x = true -> is_json (with_prop d k x) = true.
Proof.
  intros Hd Hx. destruct d; try exact Hd. simpl in *.
  now apply is_json_assign.
Qed.

Lemma is_json_questions (d : value) (qs : list value) :
  is_json d = true -> get_prop d "questions" = Ret (VArr qs) ->
  forallb is_json qs = true.
Proof.
  intros Hd Hqs. destruct (get_prop_array_inv _ _ _ Hqs) as (o & -> & Ho).
  simpl in Hd. destruct (lookup_key_json o "questions" Hd) as [E|E];
    rewrite Ho in E; [discriminate E | exact E].
Qed.

(** Writing back a Collection of JSON values with one question replaced
    stores exactly that Collection. *)
Lemma jsonify_replace (d : value) (qs : list value) (i : nat) (q : value) :
  is_json d = true -> get_prop d "questions" = Ret (VArr qs) ->
  is_json q = true ->
  jsonify (with_prop d "questions" (VArr (<[i := q]> qs))) =
    with_prop d "questions" (VArr (<[i := q]> qs)).
Proof.
  intros Hd Hqs Hq. apply jsonify_json, is_json_with_prop; [assumption|].
  simpl. apply is_json_insert; [|assumption].
  now apply (is_json_questions d).
Qed.

Lemma likes_at_replace (d : value) (qs : list value) (i : nat)
    (o : list (string * value)) :
  get_prop d "questions" = Ret (VArr qs) -> (i < length qs)%nat ->
  likes_at (with_prop d "questions" (VArr (<[i := VObj o]> qs))) i =
    lookup_key o "likes".
Proof.
  intros Hqs Hi. destruct (get_prop_array_inv _ _ _ Hqs) as (od & -> & Ho).
  unfold likes_at, with_prop. rewrite lookup_assign_eq.
  now rewrite list_lookup_insert_eq.
Qed.

(** ** POST /api/questions/:id/like *)

Lemma round53_small (n : Z) : Z.abs n < 2 ^ 53 -> round53 n = n.
Proof. intros H. unfold round53. apply Z.ltb_lt in H. now rewrite H. Qed.

Lemma INFINITY_large : 2 ^ 53 < INFINITY.
Proof. reflexivity. Qed.

Lemma to_double_small (n : Z) : Z.abs n <= 2 ^ 53 -> to_double n = n.
Proof.
  intros H. unfold to_double.
  assert (E : round53 n = n).
  { destruct (Z.eq_dec (Z.abs n) (2 ^ 53)) as [E|E].
    - destruct (Z.abs_eq_or_opp n) as [H'|H']; rewrite H' in E.
      + now rewrite E.
      + apply (f_equal Z.opp) in E. rewrite Z.opp_involutive in E. now rewrite E.
    - apply round53_small. lia. }
  rewrite E.
  assert (L : (Z.abs n <? INFINITY) = true).
  { apply Z.ltb_lt. pose proof INFINITY_large. lia. }
  now rewrite L.
Qed.

Lemma js_succ_safe (k : Z) : Z.abs k <= MAX_SAFE_INTEGER -> js_succ k = k + 1.
Proof.
  unfold MAX_SAFE_INTEGER, js_succ. intros H.
  rewrite <- (to_double_small (k + 1)) at 2 by lia.
  unfold to_double.
  assert (E : round53 (k + 1) = k + 1).
  { rewrite <- (to_double_small (k + 1)) at 2 by lia. unfold to_double.
    destruct (Z.abs (round53 (k + 1)) <? INFINITY) eqn:L; [reflexivity|].
    exfalso. revert L.
    destruct (Z.eq_dec (Z.abs (k + 1)) (2 ^ 53)) as [E|E].
    - destruct (Z.abs_eq_or_opp (k + 1)) as [H'|H']; rewrite H' in E.
      + now rewrite E.
      + apply (f_equal Z.opp) in E. rewrite Z.opp_involutive in E. now rewrite E.
    - rewrite round53_small by lia. intros L. apply Z.ltb_ge in L.
      pose proof INFINITY_large. lia. }
  rewrite E.
  assert (L : (Z.abs (k + 1) <? INFINITY) = true).
  { apply Z.ltb_lt. pose proof INFINITY_large. lia. }
  now rewrite L.
Qed.

Lemma ToNumber_safe (k : Z) :
  Z.abs k <= MAX_SAFE_INTEGER -> ToNumber (VNum k) = Ret k.
Proof.
  unfold MAX_SAFE_INTEGER. intros H. cbn [ToNumber].
  rewrite to_double_small by lia. unfold is_finite.
  assert (L : (Z.abs k <? INFINITY) = true).
  { apply Z.ltb_lt. pose proof INFINITY_large. lia. }
  now rewrite L.
Qed.

Lemma run_like (req : request) (fs : fsys) (qs : list value) (i : nat)
    (o : list (string * value)) (count : Z) :
  get_prop (load fs) "questions" = Ret (VArr qs) ->
  findIndex qs (req_id req) 0 = Ret (Some i) ->
  qs !! i = Some (VObj o) ->
  (truthy (lookup_key o "likes") = false /\ count = 0) \/
    lookup_key o "likes" = VNum count ->
  Z.abs count <= MAX_SAFE_INTEGER ->
  run (likeQuestion req) fs =
    (Ret (mkRes 200 (VObj [("success", VBool true); ("likes", VNum (count + 1))])),
     write (Json (jsonify (with_prop (load fs) "questions"
              (VArr (<[i := VObj (assign_key o "likes" (VNum (count + 1)))]> qs)))))
           fs).
Proof.
  intros Hqs Hfind Hi Hlikes Hsafe. unfold likeQuestion, mbind, prog_bind.
  rewrite run_read_then, Hqs. cbn [bind as_array]. rewrite Hfind. cbn [bind].
  rewrite Hi. cbn [default from_option id get_prop bind].
  destruct (get_prop_array_inv _ _ _ Hqs) as (od & Hd & Ho). rewrite Hd.
  assert (Hcase : truthy (lookup_key o "likes") = false /\ count = 0 \/
                  truthy (lookup_key o "likes") = true /\
                  lookup_key o "likes" = VNum count).
  { destruct Hlikes as [H|H]; [now left|].
    destruct (truthy (lookup_key o "likes")) eqn:E; [now right|left].
    split; [reflexivity|]. rewrite H in E. simpl in E.
    apply negb_false_iff, Z.eqb_eq in E. exact E. }
  destruct Hcase as [[Hf ->]|[Ht Hn]].
  - rewrite Hf. cbn [negb set_prop bind get_prop].
    rewrite lookup_assign_eq, (ToNumber_safe 0 Hsafe).
    cbn [bind set_prop get_prop].
    rewrite assign_assign, lookup_assign_eq, (js_succ_safe 0 Hsafe). reflexivity.
  - rewrite Ht. cbn [negb bind get_prop]. rewrite Hn, (ToNumber_safe count Hsafe).
    cbn [bind set_prop get_prop].
    rewrite lookup_assign_eq, (js_succ_safe count Hsafe).
    reflexivity.
Qed.

Lemma run_like_json (req : request) (fs : fsys) (qs : list value) (i : nat)
    (o : list (string * value)) (count : Z) :
  is_json (load fs) = true ->
  get_prop (load fs) "questions" = Ret (VArr qs) ->
  findIndex qs (req_id req) 0 = Ret (Some i) ->
  qs !! i = Some (VObj o) ->
  (truthy (lookup_key o "likes") = false /\ count = 0) \/
    lookup_key o "likes" = VNum count ->
  Z.abs count <= MAX_SAFE_INTEGER ->
  run (likeQuestion req) fs =
    (Ret (mkRes 200 (VObj [("success", VBool true); ("likes", VNum (count + 1))])),
     write (Json (with_prop (load fs) "questions"
              (VArr (<[i := VObj (assign_key o "likes" (VNum (count + 1)))]> qs))))
           fs).
Proof.
  intros Hj Hqs Hfind Hi Hlikes Hsafe.
  rewrite (run_like req fs qs i o count) by assumption.
  rewrite jsonify_replace; try assumption; [reflexivity|].
  pose proof (is_json_lookup qs i _ (is_json_questions _ _ Hj Hqs) Hi) as Ho.
  simpl in *. now apply is_json_assign.
Qed.

Lemma zero_is_safe : Z.abs 0 <= MAX_SAFE_INTEGER.
Proof. discriminate. Qed.



(** ** POST /api/questions/:id/answer *)

Lemma run_answer_invalid (req : request) (now : Z) (iso iso' : string) (fs : fsys) :
  has_body req = true ->
  truthy (field req "answer") = false ->
  run (addAnswer req now iso iso') fs = (Ret (failure 400 "Answer is required"), fs).
Proof.
  intros Hb Ha. unfold addAnswer, mbind, prog_bind.
  rewrite !get_prop_field by assumption. cbn [bind].
  now rewrite Ha.
Qed.

Lemma run_answer_not_found (req : request) (now : Z) (iso iso' : string)
    (fs : fsys) (qs : list value) :
  has_body req = true ->
  truthy (field req "answer") = true ->
  get_prop (load fs) "questions" = Ret (VArr qs) ->
  findIndex qs (req_id req) 0 = Ret None ->
  run (addAnswer req now iso iso') fs = (Ret (failure 404 "Question not found"), fs).
Proof.
  intros Hb Ha Hqs Hfind. unfold addAnswer, mbind, prog_bind.
  rewrite !get_prop_field by assumption. cbn [bind].
  rewrite Ha. cbn [negb]. rewrite run_read_then, Hqs. cbn [bind as_array].
  now rewrite Hfind.
Qed.

Lemma run_like_not_found (req : request) (fs : fsys) (qs : list value) :
  get_prop (load fs) "questions" = Ret (VArr qs) ->
  findIndex qs (req_id req) 0 = Ret None ->
  run (likeQuestion req) fs = (Ret (failure 404 "Question not found"), fs).
Proof.
  intros Hqs Hfind. unfold likeQuestion, mbind, prog_bind.
  rewrite run_read_then, Hqs. cbn [bind as_array].
  now rewrite Hfind.
Qed.

(** C6. POST /api/questions/:id/answer with a missing or empty answer replies
    400 without reading or writing.  On a stored Collection none of whose
    questions has the id of the request (compared as the handlers do, with
    [==], which takes the id for a double), POST /api/questions/:id/like
    replies 404, and so does POST /api/questions/:id/answer with an answer;
    in each case the file and the history of writes are what they were:
    nothing was written. *)
Theorem unknown_id_not_found (req : request) (now : Z) (iso iso' : string)
    (fs : fsys) (qs : list value) :
  (has_body req = true -> truthy (field req "answer") = false ->
   run (addAnswer req now iso iso') fs = (Ret (failure 400 "Answer is required"), fs))
  /\
  (get_prop (load fs) "questions" = Ret (VArr qs) ->
   Forall (fun q => id_matches q (req_id req) = Ret false) qs ->
   run (likeQuestion req) fs = (Ret (failure 404 "Question not found"), fs)
   /\ (has_body req = true -> truthy (field req "answer") = true ->
       run (addAnswer req now iso iso') fs =
         (Ret (failure 404 "Question not found"), fs))).
Proof.
  split; [apply run_answer_invalid|].
  intros Hqs Hnone. apply (findIndex_None qs (req_id req) 0) in Hnone.
  split; [now apply (run_like_not_found req fs qs)|].
  intros Hb Ha. now apply (run_answer_not_found req now iso iso' fs qs).
Qed.







(** ** GET /api/questions and a document without questions *)

Lemma as_array_falsy (v : value) : truthy v = false -> as_array v = Throw.
Proof. destruct v; simpl; intros H; try reflexivity. discriminate H. Qed.

Lemma load_json (fs : fsys) (d : value) :
  file fs = Some (Json d) -> load fs = d.
Proof. unfold load. now intros ->. Qed.

(** C9, as the code has it.  When the stored document parses to a value other
    than null that has no questions property, or a falsy one (as the document
    {} does), GET /api/questions replies with the empty list, while on the same
    file a like, a submission with a question and an answer with content all
    reply 500; none of them writes. *)
Theorem listQuestions_without_questions (fs : fsys) (d v : value)
    (req : request) (now : Z) (iso iso' : string) :
  file fs = Some (Json d) ->
  get_prop d "questions" = Ret v ->
  truthy v = false ->
  run listQuestions fs = (Ret (mkRes 200 (VArr [])), fs)
  /\ run (likeQuestion req) fs = (Ret internal_error, fs)
  /\ (has_body req = true -> truthy (field req "question") = true ->
      run (submitQuestion req now iso) fs = (Ret internal_error, fs))
  /\ (has_body req = true -> truthy (field req "answer") = true ->
      run (addAnswer req now iso iso') fs = (Ret internal_error, fs)).
Proof.
  intros Hf Hv Ht. apply load_json in Hf.
  pose proof (as_array_falsy v Ht) as Ha.
  repeat split.
  - unfold listQuestions, mbind, prog_bind.
    rewrite run_read_then, Hf, Hv. cbn [bind]. unfold or_else. now rewrite Ht.
  - unfold likeQuestion, mbind, prog_bind.
    rewrite run_read_then, Hf, Hv. cbn [bind]. now rewrite Ha.
  - intros Hb Hq. unfold submitQuestion, mbind, prog_bind.
    rewrite !get_prop_field by assumption. cbn [bind].
    rewrite Hq. cbn [negb]. rewrite run_read_then, Hf, Hv. cbn [bind].
    now rewrite Ha.
  - intros Hb Hq. unfold addAnswer, mbind, prog_bind.
    rewrite !get_prop_field by assumption. cbn [bind].
    rewrite Hq. cbn [negb]. rewrite run_read_then, Hf, Hv. cbn [bind].
    now rewrite Ha.
Qed.

(** ** Ids of submissions *)

Lemma question_id_of_submit (req : request) (now : Z) (iso : string) (fs : fsys) :
  question_id_of (run (submitQuestion req now iso) fs).1 = None \/
  question_id_of (run (submitQuestion req now iso) fs).1 = Some now.
Proof.
  unfold submitQuestion, mbind, prog_bind.
  destruct (has_body req) eqn:Hb.
  - rewrite !get_prop_field by assumption. cbn [bind].
    destruct (truthy (field req "question")); cbn [negb]; [|now left].
    rewrite run_read_then.
    destruct (load fs) as [| |b|n|s|l|o]; try (now left).
    cbn [get_prop bind].
    destruct (lookup_key o "questions"); try (now left). now right.
  - left. unfold has_body in Hb.
    destruct (req_body req); try discriminate Hb; reflexivity.
Qed.

Lemma run_all_ids (subs : list submission) (fs : fsys) :
  Forall (fun r => is_Some (question_id_of r)) (run_all (map submit subs) fs).1 ->
  omap question_id_of (run_all (map submit subs) fs).1 = map sub_now subs.
Proof.
  revert fs. induction subs as [|s subs IH]; intros fs H; [reflexivity|].
  simpl in *. inversion H as [|? ? Hs Hrest]; subst.
  unfold submit at 1.
  destruct (question_id_of_submit (sub_req s) (sub_now s) (sub_iso s) fs) as [E|E].
  - unfold submit in Hs at 1. rewrite E in Hs. now destruct Hs.
  - rewrite E. f_equal. now apply IH.
Qed.

(** C1, as the code has it.  In a series of submissions served one after the
    other and all successful, the id given to each is the reading of Date.now()
    taken while it is handled.  So the ids are non-decreasing when the
    readings are, and pairwise distinct when the readings are; submissions
    that read the same millisecond get the same id. *)
Theorem submitted_ids_are_clock_readings (subs : list submission) (fs : fsys) :
  let ids := omap question_id_of (run_all (map submit subs) fs).1 in
  Forall (fun r => is_Some (question_id_of r)) (run_all (map submit subs) fs).1 ->
  ids = map sub_now subs
  /\ (StronglySorted Z.le (map sub_now subs) -> StronglySorted Z.le ids)
  /\ (NoDup (map sub_now subs) -> NoDup ids).
Proof.
  intros ids H. assert (E : ids = map sub_now subs) by now apply run_all_ids.
  rewrite E. auto.
Qed.

(** ** Likes served one after the other *)



Lemma load_write (d : value) (fs : fsys) : load (write (Json d) fs) = d.
Proof. reflexivity. Qed.


Lemma get_prop_with_prop (d : value) (k : string) (l : list value) (y : value) :
  get_prop d k = Ret (VArr l) ->
  get_prop (with_prop d k y) k = Ret y.
Proof.
  intros Hl.
  destruct (get_prop_array_inv _ _ _ Hl) as (od & -> & Ho).
  cbn [with_prop get_prop]. now rewrite lookup_assign_eq.
Qed.


(** ** Counting the file-system calls of a handler *)


Lemma step_of_final {A} (p : prog A) (fs : fsys) :
  final p = true -> step p fs = (p, fs).
Proof. destruct p; simpl; intros H; try reflexivity; discriminate H. Qed.

Lemma within_final {A} (n : nat) (p : prog A) : final p = true -> within n p.
Proof.
  intros H. induction n as [|n IH]; [exact H|].
  intros fs. now rewrite step_of_final.
Qed.

Lemma within_S {A} (n : nat) (p : prog A) : within n p -> within (S n) p.
Proof.
  revert p. induction n as [|n IH]; intros p H.
  - intros fs. now rewrite step_of_final.
  - intros fs. apply IH, H.
Qed.

Lemma within_bind {A B} (n m : nat) (p : prog A) (f : A -> prog B) :
  within n p -> (forall a, within m (f a)) -> within (n + m) (bind p f).
Proof.
  revert p. induction n as [|n IH]; intros p Hp Hf.
  - destruct p; try discriminate Hp; [apply Hf | now apply within_final..].
  - destruct p as [a| | |k|k|t k].
    + clear Hp. simpl bind. generalize (Hf a). generalize (f a). clear.
      induction n as [|n IHn]; intros q Hq; [now apply within_S|].
      apply within_S. now apply IHn.
    + now apply within_final.
    + now apply within_final.
    + intros fs. apply IH; [apply (Hp fs)|exact Hf].
    + intros fs. apply IH; [apply (Hp fs)|exact Hf].
    + intros fs. apply IH; [apply (Hp fs)|exact Hf].
Qed.

Lemma within_bind_pure {A B} (m : nat) (p : prog A) (f : A -> prog B) :
  final p = true -> (forall a, within m (f a)) -> within m (bind p f).
Proof. intros Hp Hf. now apply (within_bind 0 m). Qed.

Lemma within_try_catch {A} (n : nat) (p h : prog A) :
  within n p -> final h = true -> within n (try_catch p h).
Proof.
  revert p. induction n as [|n IH]; intros p Hp Hh.
  - destruct p; try discriminate Hp; simpl; auto.
  - destruct p as [a| | |k|k|t k]; try (now apply within_final);
      intros fs; apply IH; try exact Hh; apply (Hp fs).
Qed.

Lemma final_get_prop (v : value) (k : string) : final (get_prop v k) = true.
Proof. now destruct v. Qed.

Lemma final_set_prop (v : value) (k : string) (x : value) :
  final (set_prop v k x) = true.
Proof. now destruct v. Qed.

Lemma final_as_array (v : value) : final (as_array v) = true.
Proof. now destruct v. Qed.

Lemma final_ToNumber (v : value) : final (ToNumber v) = true.
Proof.
  assert (Htext : forall s : string,
            final (match string_number s with
                   | Some n =>
                       if is_finite (to_double n) then Ret (to_double n)
                       else Unmodelled
                   | None => Unmodelled
                   end) = true).
  { intros s. destruct (string_number s) as [n|]; [|reflexivity].
    now destruct (is_finite (to_double n)). }
  destruct v as [| |b|n|s|l|o]; try reflexivity.
  - unfold ToNumber. now destruct (is_finite (to_double n)).
  - apply Htext.
  - apply final_bind; [apply final_to_text | apply Htext].
  - apply final_bind; [apply final_to_text | apply Htext].
Qed.

Lemma final_findIndex (qs : list value) (id : Z) (n : nat) :
  final (findIndex qs id n) = true.
Proof.
  revert n. induction qs as [|q qs IH]; intros n; [reflexivity|].
  rewrite findIndex_cons.
  destruct (id_matches_final q id) as [E|[E|[[|] E]]]; rewrite E; simpl; auto.
Qed.

Lemma within_readQuestionsFile : within 1 readQuestionsFile.
Proof. intros fs. simpl. now destruct (file fs) as [[s|s|v]|]. Qed.

Lemma within_writeQuestionsFile (d : value) : within 1 (writeQuestionsFile d).
Proof. destruct d; intros fs; reflexivity. Qed.

Create HintDb calls.
#[local] Hint Resolve final_get_prop final_set_prop final_as_array
  final_ToNumber final_findIndex : calls.

(** A like makes at most two file-system calls: it reads the file and, when
    it found the question, writes it. *)
Lemma within_likeQuestion (req : request) : within 2 (likeQuestion req).
Proof.
  unfold likeQuestion, mbind, prog_bind.
  apply within_try_catch; [|reflexivity].
  apply (within_bind 1 1); [apply within_readQuestionsFile|]. intros d.
  apply within_bind_pure; [auto with calls|]. intros questions.
  apply within_bind_pure; [auto with calls|]. intros qs.
  apply within_bind_pure; [auto with calls|]. intros [i|];
    [|now apply within_final].
  apply within_bind_pure; [auto with calls|]. intros likes.
  apply within_bind_pure;
    [destruct (negb (truthy likes)); simpl; auto with calls|]. intros q.
  apply within_bind_pure; [auto with calls|]. intros likes'.
  apply within_bind_pure; [auto with calls|]. intros n.
  apply within_bind_pure; [auto with calls|]. intros q'.
  apply (within_bind 1 0); [apply within_writeQuestionsFile|]. intros _.
  apply (within_bind_pure 0); [auto with calls|]. reflexivity.
Qed.





(** ** A read during a write *)



(** ** The claims on concrete stores *)

(** C1 fails as stated: two submissions handled within the same millisecond
    both succeed and get the same id, and the stored Collection then holds two
    questions with that id. *)
Lemma same_tick_same_id :
  let subs := [mkSub ask_why 1700000000000 "2023-11-14T22:13:20.000Z";
               mkSub ask_why 1700000000000 "2023-11-14T22:13:20.000Z"] in
  let r := run_all (map submit subs) no_file in
  map question_id_of r.1 = [Some 1700000000000; Some 1700000000000]
  /\ ~ NoDup (omap question_id_of r.1)
  /\ exists q1 q2,
       get_prop (load r.2) "questions" = Ret (VArr [VObj q1; VObj q2])
       /\ lookup_key q1 "id" = VNum 1700000000000
       /\ lookup_key q2 "id" = VNum 1700000000000.
Proof.
  cbv zeta. split; [reflexivity|]. split.
  - intros H. vm_compute in H. apply NoDup_cons in H as [H _].
    apply H. now left.
  - vm_compute. eexists _, _. repeat split.
Qed.

Lemma submitted_ids_are_clock_readings_witness :
  omap question_id_of
    (run_all (map submit [mkSub ask_why 1000 "t0"; mkSub ask_why 1001 "t1"]) no_file).1
    = [1000; 1001]
  /\ NoDup (omap question_id_of
      (run_all (map submit [mkSub ask_why 1000 "t0"; mkSub ask_why 1001 "t1"]) no_file).1).
Proof.
  destruct (submitted_ids_are_clock_readings
              [mkSub ask_why 1000 "t0"; mkSub ask_why 1001 "t1"] no_file)
    as (H1 & _ & H3).
  - repeat constructor; vm_compute; eauto.
  - split; [exact H1|]. apply H3. simpl.
    repeat constructor; rewrite ?list_elem_of_In; simpl; intuition discriminate.
Defined.







Lemma unknown_id_not_found_witness :
  let fs := store_of (collection_of [VObj liked5]) in
  run (addAnswer (request_of [("answer", VStr "")] 7) 1 "t1" "t2") fs =
    (Ret (failure 400 "Answer is required"), fs)
  /\ run (likeQuestion (request_of [("answer", VStr "x")] 9999999)) fs =
       (Ret (failure 404 "Question not found"), fs)
  /\ run (addAnswer (request_of [("answer", VStr "x")] 9999999) 1 "t1" "t2") fs =
       (Ret (failure 404 "Question not found"), fs).
Proof.
  cbv zeta. split.
  - exact (proj1 (unknown_id_not_found (request_of [("answer", VStr "")] 7)
                    1 "t1" "t2" (store_of (collection_of [VObj liked5])) [])
             eq_refl eq_refl).
  - destruct (proj2 (unknown_id_not_found (request_of [("answer", VStr "x")] 9999999)
                       1 "t1" "t2" (store_of (collection_of [VObj liked5]))
                       [VObj liked5]) eq_refl) as [H1 H2].
    + repeat constructor.
    + split; [exact H1 | exact (H2 eq_refl eq_refl)].
Defined.



(** C9 fails as stated: the document null parses and holds no questions
    array, and GET /api/questions replies 500 on it, not the empty list. *)
Lemma listQuestions_null_document :
  JSON_parse (Json VNull) = Ret VNull
  /\ run readQuestionsFile (store_of VNull) = (Ret VNull, store_of VNull)
  /\ run listQuestions (store_of VNull) = (Ret internal_error, store_of VNull)
  /\ status internal_error = 500
  /\ run listQuestions (store_of VNull) <> (Ret (mkRes 200 (VArr [])), store_of VNull).
Proof. repeat split. discriminate. Qed.

Lemma listQuestions_without_questions_witness :
  let fs := store_of (VObj []) in
  run listQuestions fs = (Ret (mkRes 200 (VArr [])), fs)
  /\ run (likeQuestion (request_of [] 7)) fs = (Ret internal_error, fs)
  /\ run (submitQuestion ask_why 1 "t0") fs = (Ret internal_error, fs)
  /\ run (addAnswer (request_of [("answer", VStr "x")] 7) 1 "t1" "t2") fs =
       (Ret internal_error, fs).
Proof.
  cbv zeta.
  destruct (listQuestions_without_questions (store_of (VObj [])) (VObj []) VUndefined
              (request_of [] 7) 1 "t0" "t1" eq_refl eq_refl eq_refl)
    as (H1 & H2 & _ & _).
  destruct (listQuestions_without_questions (store_of (VObj [])) (VObj []) VUndefined
              ask_why 1 "t0" "t1" eq_refl eq_refl eq_refl)
    as (_ & _ & H3 & _).
  destruct (listQuestions_without_questions (store_of (VObj [])) (VObj []) VUndefined
              (request_of [("answer", VStr "x")] 7) 1 "t1" "t2" eq_refl eq_refl eq_refl)
    as (_ & _ & _ & H4).
  split; [exact H1|]. split; [exact H2|].
  split; [exact (H3 eq_refl eq_refl) | exact (H4 eq_refl eq_refl)].
Defined.


(** ** Further properties of the store *)

Lemma lookup_jsonify_fields_assign (o : list (string * value)) (k : string)
    (x : value) :
  x <> VUndefined ->
  lookup_key (jsonify_fields (assign_key o k x)) k = jsonify x.
Proof.
  intros Hx. induction o as [|[k' x'] o IH].
  - simpl. destruct x; try (now contradiction Hx); simpl;
      now rewrite String.eqb_refl.
  - cbn [assign_key]. destruct (String.eqb k' k) eqn:E.
    + rewrite lookup_jsonify_fields_cons, String.eqb_refl.
      destruct x; try reflexivity. now contradiction Hx.
    + rewrite lookup_jsonify_fields_cons, E. exact IH.
Qed.

(** What a write of the Collection with its questions replaced leaves in the
    file: a JSON document with a questions array. *)
Lemma written_collection (d : value) (qs l : list value) :
  get_prop d "questions" = Ret (VArr qs) ->
  is_json (jsonify (with_prop d "questions" (VArr l))) = true
  /\ get_prop (jsonify (with_prop d "questions" (VArr l))) "questions"
       = Ret (VArr (map jsonify_elem l)).
Proof.
  intros Hqs. destruct (get_prop_array_inv _ _ _ Hqs) as (od & -> & Ho).
  split; [now apply is_json_jsonify|].
  cbn [with_prop]. rewrite jsonify_VObj. cbn [get_prop].
  now rewrite lookup_jsonify_fields_assign.
Qed.

Lemma run_write_then {A} (d : value) (qs l : list value)
    (k : unit -> prog A) (h : prog A) (fs : fsys) :
  get_prop d "questions" = Ret (VArr qs) ->
  run (try_catch (bind (writeQuestionsFile (with_prop d "questions" (VArr l))) k) h) fs
  = run (try_catch (k tt) h)
        (write (Json (jsonify (with_prop d "questions" (VArr l)))) fs).
Proof.
  intros Hqs. destruct (get_prop_array_inv _ _ _ Hqs) as (od & -> & Ho).
  reflexivity.
Qed.

Lemma as_array_inv (v : value) (l : list value) :
  as_array v = Ret l -> v = VArr l.
Proof. destruct v; simpl; intros H; try discriminate H. now injection H as ->. Qed.

(** The operations on values stay inside the model: only [ToNumber] can
    leave it. *)
Lemma get_prop_modelled (v : value) (k : string) : get_prop v k <> Unmodelled.
Proof. now destruct v. Qed.

Lemma as_array_modelled (v : value) : as_array v <> Unmodelled.
Proof. now destruct v. Qed.

Lemma bind_modelled {A B} (p : prog A) (f : A -> prog B) :
  final p = true -> p <> Unmodelled -> (forall a, f a <> Unmodelled) ->
  bind p f <> Unmodelled.
Proof.
  destruct p; intros Hf Hp Hk; try discriminate Hf; simpl; auto; discriminate.
Qed.

Lemma to_text_modelled (v : value) : to_text v <> Unmodelled.
Proof.
  induction v as [| |b|n|s|l IH|o IH] using value_nested_ind; try discriminate.
  - simpl. induction IH as [|x l Hx _ IHl]; [discriminate|].
    apply bind_modelled.
    + destruct x; try reflexivity; apply final_to_text.
    + destruct x; try discriminate; exact Hx.
    + intros s. destruct l as [|y l]; [discriminate|].
      apply bind_modelled; [|exact IHl|discriminate].
      exact (final_to_text (VArr (y :: l))).
  - simpl. now destruct (has_key o "toString").
Qed.

Lemma loose_eq_modelled (v : value) (id : Z) : loose_eq v id <> Unmodelled.
Proof.
  destruct v; try discriminate;
    (apply bind_modelled;
     [apply final_to_text | apply to_text_modelled | discriminate]).
Qed.

Lemma findIndex_modelled (qs : list value) (id : Z) (n : nat) :
  findIndex qs id n <> Unmodelled.
Proof.
  revert n. induction qs as [|q qs IH]; intros n; [discriminate|].
  rewrite findIndex_cons. unfold id_matches, mbind, prog_bind.
  apply bind_modelled.
  - apply final_bind; [apply final_get_prop|]. intros v. apply final_loose_eq.
  - apply bind_modelled;
      [apply final_get_prop | apply get_prop_modelled |].
    intros v. apply loose_eq_modelled.
  - intros [|]; [discriminate | apply IH].
Qed.

Ltac pure_case p a E :=
  let H := fresh "Hp" in
  assert (H : final p = true) by (auto with calls);
  destruct (final_cases p H) as [[a E]|[E|E]]; clear H;
  [ | |
    try (exfalso; revert E;
         solve [ apply get_prop_modelled | apply as_array_modelled
               | apply findIndex_modelled ]) ];
  rewrite E; cbn [bind try_catch].

Ltac refused :=
  cbn [run try_catch bind]; apply handled_refused; cbn; tauto.

Lemma handled_likeQuestion (req : request) (fs : fsys) :
  handled fs (run (likeQuestion req) fs)
  \/ (uncounted req fs /\ run (likeQuestion req) fs = (Unmodelled, fs)).
Proof.
  unfold likeQuestion, mbind, prog_bind. rewrite run_read_then.
  pure_case (get_prop (load fs) "questions") questions E1; try (left; refused).
  pure_case (as_array questions) qs E2; try (left; refused).
  apply as_array_inv in E2. subst questions.
  pure_case (findIndex qs (req_id req) 0) r E3; try (left; refused).
  destruct r as [i|]; [|left; refused].
  destruct (findIndex_found _ _ _ _ E3) as (o & Ho & _ & Hid).
  rewrite Nat.sub_0_r in Ho. rewrite Ho.
  cbn [default from_option id get_prop bind].
  assert (Hdone : forall o' : list (string * value),
            handled fs
              (Ret (mkRes 200 (VObj [("success", VBool true);
                                     ("likes", lookup_key o' "likes")])),
               write (Json (jsonify (with_prop (load fs) "questions"
                                       (VArr (<[i := VObj o']> qs))))) fs)).
  { intros o'.
    destruct (written_collection (load fs) qs (<[i := VObj o']> qs) E1) as [Hj Hg].
    eapply handled_done; [reflexivity | exact Hj | exact Hg]. }
  destruct (truthy (lookup_key o "likes")) eqn:Ht;
    cbn [negb set_prop bind get_prop].
  - pure_case (ToNumber (lookup_key o "likes")) n E6.
    + cbn [set_prop bind]. rewrite (run_write_then _ qs) by exact E1.
      cbn [run bind try_catch get_prop]. left. apply Hdone.
    + left; refused.
    + right. split; [|reflexivity]. exists qs, i, o. auto.
  - rewrite lookup_assign_eq, (ToNumber_safe 0 zero_is_safe).
    cbn [set_prop bind]. rewrite (run_write_then _ qs) by exact E1.
    cbn [run bind try_catch get_prop]. left. apply Hdone.
Qed.

Lemma get_prop_no_body (req : request) (k : string) :
  has_body req = false -> get_prop (req_body req) k = Throw.
Proof.
  unfold has_body. destruct (req_body req); intros H; try discriminate H;
    reflexivity.
Qed.

Lemma handled_submitQuestion (req : request) (now : Z) (iso : string) (fs : fsys) :
  handled fs (run (submitQuestion req now iso) fs).
Proof.
  unfold submitQuestion, mbind, prog_bind.
  destruct (has_body req) eqn:Hb.
  - rewrite !get_prop_field by assumption. cbn [bind].
    destruct (truthy (field req "question")); cbn [negb]; [|refused].
    rewrite run_read_then.
    pure_case (get_prop (load fs) "questions") questions E1; try refused.
    pure_case (as_array questions) qs E2; try refused.
    apply as_array_inv in E2. subst questions.
    rewrite (run_write_then _ qs) by exact E1.
    cbn [newQuestion get_prop bind try_catch run lookup_key String.eqb Ascii.eqb Bool.eqb].
    destruct (written_collection (load fs) qs
                (qs ++ [newQuestion req now iso (field req "name")
                          (field req "email") (field req "question")
                          (field req "timestamp") (field req "ip")
                          (field req "userAgent")]) E1) as [Hj Hg].
    eapply handled_done; [reflexivity | exact Hj | exact Hg].
  - rewrite (get_prop_no_body req "name") by assumption. refused.
Qed.

Lemma handled_addAnswer (req : request) (now : Z) (iso iso' : string) (fs : fsys) :
  handled fs (run (addAnswer req now iso iso') fs).
Proof.
  unfold addAnswer, mbind, prog_bind.
  destruct (has_body req) eqn:Hb.
  - rewrite !get_prop_field by assumption. cbn [bind].
    destruct (truthy (field req "answer")); cbn [negb]; [|refused].
    rewrite run_read_then.
    pure_case (get_prop (load fs) "questions") questions E1; try refused.
    pure_case (as_array questions) qs E2; try refused.
    apply as_array_inv in E2. subst questions.
    pure_case (findIndex qs (req_id req) 0) r E3; try refused.
    destruct r as [i|]; [|refused].
    destruct (findIndex_found _ _ _ _ E3) as (o & Ho & _ & Hid).
    rewrite Nat.sub_0_r in Ho. rewrite Ho.
    cbn [default from_option id get_prop bind].
    set (a := newAnswer now iso (field req "answer") (field req "author")
                (field req "isOwner")).
    assert (Hq0 : exists o0,
              (if negb (truthy (lookup_key o "answers"))
               then set_prop (VObj o) "answers" (VArr [])
               else Ret (VObj o)) = Ret (VObj o0)).
    { destruct (negb (truthy (lookup_key o "answers"))); simpl; eauto. }
    destruct Hq0 as (o0 & ->). cbn [bind get_prop].
    pure_case (as_array (lookup_key o0 "answers")) l E6; try refused.
    cbn [with_prop].
    set (o1 := assign_key o0 "answers" (VArr (l ++ [a]))).
    assert (Hq2 : exists o2,
              (if truthy (field req "isOwner")
               then bind (set_prop (VObj o1) "status" (VStr "answered"))
                      (fun q2 => bind (set_prop q2 "response" (field req "answer"))
                         (fun q3 => set_prop q3 "respondedAt" (VStr iso')))
               else Ret (VObj o1)) = Ret (VObj o2)).
    { destruct (truthy (field req "isOwner")); simpl; eauto. }
    destruct Hq2 as (o2 & ->). cbn [bind].
    rewrite (run_write_then _ qs) by exact E1.
    cbn [run bind try_catch].
    destruct (written_collection (load fs) qs (<[i := VObj o2]> qs) E1) as [Hj Hg].
    eapply handled_done; [reflexivity | exact Hj | exact Hg].
  - rewrite (get_prop_no_body req "answer") by assumption. refused.
Qed.

Lemma handled_replies (fs : fsys) (r : prog response * fsys) :
  handled fs r ->
  exists res, r.1 = Ret res /\
    (status res = 200 \/ status res = 400 \/ status res = 404 \/ status res = 500).
Proof.
  intros [res H|res d l H1 H2 H3]; exists res; (split; [reflexivity|tauto]).
Qed.

Lemma handled_quiet (fs : fsys) (r : prog response * fsys) (res : response) :
  handled fs r -> r.1 = Ret res -> status res = 400 \/ status res = 404 ->
  r.2 = fs.
Proof.
  intros [res' H|res' d l H1 H2 H3] E Hs; [reflexivity|].
  simpl in E. injection E as <-. rewrite H1 in Hs.
  destruct Hs as [Hs|Hs]; discriminate Hs.
Qed.

Lemma handled_written (fs : fsys) (r : prog response * fsys) (res : response) :
  handled fs r -> r.1 = Ret res -> status res = 200 ->
  exists d l, r.2 = write (Json d) fs /\ is_json d = true /\
              get_prop d "questions" = Ret (VArr l).
Proof.
  intros [res' H|res' d l H1 H2 H3] E Hs; simpl in E.
  - injection E as <-. rewrite Hs in H. destruct H as [H|[H|H]]; discriminate H.
  - eauto.
Qed.

Lemma run_listQuestions (fs : fsys) :
  run listQuestions fs =
    (match get_prop (load fs) "questions" with
     | Ret questions => Ret (mkRes 200 (or_else questions (VArr [])))
     | _ => Ret internal_error
     end, fs).
Proof.
  unfold listQuestions, mbind, prog_bind. rewrite run_read_then.
  destruct (load fs); reflexivity.
Qed.

(** X1. Every request is answered, and no exception leaves a handler.
    Whatever the request and the file hold, a submission, a listing and an
    answer end in a reply with status 200, 400, 404 or 500.  So does a like,
    the one case apart that the number model does not follow: the question
    found has a truthy likes that [ToNumber] does not convert ([uncounted]). *)
Theorem handlers_catch_every_exception (req : request) (now : Z)
    (iso iso' : string) (fs : fsys) :
  let replies := fun p : prog response =>
    exists res, (run p fs).1 = Ret res /\
      (status res = 200 \/ status res = 400 \/ status res = 404 \/ status res = 500) in
  replies (submitQuestion req now iso)
  /\ replies listQuestions
  /\ replies (addAnswer req now iso iso')
  /\ (replies (likeQuestion req) \/ uncounted req fs).
Proof.
  intros replies. subst replies. cbv beta.
  split; [apply (handled_replies fs), handled_submitQuestion|].
  split.
  { rewrite run_listQuestions. cbn [fst].
    destruct (get_prop (load fs) "questions"); eexists;
      (split; [reflexivity|cbn; tauto]). }
  split; [apply (handled_replies fs), handled_addAnswer|].
  destruct (handled_likeQuestion req fs) as [H|[H _]]; [left|now right].
  now apply (handled_replies fs).
Qed.

(** X2. A request that is refused has written nothing: after a submission,
    an answer or a like answered with 400 or 404 the file and the history of
    writes are what they were, no call of fs.writeFile was made.  A listing
    never writes. *)
Theorem failed_request_writes_nothing (req : request) (now : Z)
    (iso iso' : string) (fs : fsys) :
  let quiet := fun p : prog response =>
    forall res, (run p fs).1 = Ret res ->
      status res = 400 \/ status res = 404 -> (run p fs).2 = fs in
  quiet (submitQuestion req now iso)
  /\ quiet (addAnswer req now iso iso')
  /\ quiet (likeQuestion req)
  /\ (run listQuestions fs).2 = fs.
Proof.
  intros quiet. subst quiet. cbv beta. repeat split.
  - intros res. apply handled_quiet, handled_submitQuestion.
  - intros res. apply handled_quiet, handled_addAnswer.
  - intros res E. destruct (handled_likeQuestion req fs) as [H|[_ H]].
    + now apply (handled_quiet fs _ res).
    + rewrite H in E. discriminate E.
  - now rewrite run_listQuestions.
Qed.

(** X3. A submission or an answer that is answered with 200 has written the
    file exactly once, and what it wrote is a JSON document with a questions
    array: a later read parses it and finds a Collection.  The same holds for
    a like answered with 200 in the model, that is, unless the likes it found
    is [uncounted]. *)
Theorem successful_request_writes_a_collection (req : request) (now : Z)
    (iso iso' : string) (fs : fsys) :
  let stores := fun p : prog response =>
    forall res, (run p fs).1 = Ret res -> status res = 200 ->
    exists d l, (run p fs).2 = write (Json d) fs /\ is_json d = true /\
                get_prop d "questions" = Ret (VArr l) /\
                run readQuestionsFile (run p fs).2 = (Ret d, (run p fs).2) in
  stores (submitQuestion req now iso)
  /\ stores (addAnswer req now iso iso')
  /\ (stores (likeQuestion req) \/ uncounted req fs).
Proof.
  intros stores. subst stores. cbv beta.
  assert (H : forall p, handled fs (run p fs) ->
            forall res, (run p fs).1 = Ret res -> status res = 200 ->
            exists d l, (run p fs).2 = write (Json d) fs /\ is_json d = true /\
                        get_prop d "questions" = Ret (VArr l) /\
                        run readQuestionsFile (run p fs).2 = (Ret d, (run p fs).2)).
  { intros p Hp res E Hs.
    destruct (handled_written fs _ res Hp E Hs) as (d & l & E2 & Hj & Hg).
    exists d, l. rewrite E2. repeat split; assumption. }
  split; [apply H, handled_submitQuestion|].
  split; [apply H, handled_addAnswer|].
  destruct (handled_likeQuestion req fs) as [Hl|[Hl _]]; [left|now right].
  now apply H.
Qed.


(** X5. Start-up never changes the Collection: after startServer the file
    exists, and it holds the text it held before when there was one; a read
    returns the same Collection as a read before start-up would have. *)
Theorem startServer_keeps_the_collection (fs : fsys) :
  (run startServer fs).1 = Ret tt
  /\ is_Some (file (run startServer fs).2)
  /\ (forall t, file fs = Some t -> (run startServer fs).2 = fs)
  /\ run readQuestionsFile (run startServer fs).2 =
       (Ret (load fs), (run startServer fs).2).
Proof.
  unfold startServer, mbind, prog_bind, initializeQuestionsFile. simpl.
  destruct fs as [[t|] w]; simpl.
  - split; [reflexivity|]. split; [eauto|]. split; [reflexivity|].
    now destruct t.
  - split; [reflexivity|]. split; [eauto|]. split; [|reflexivity].
    intros t' E. discriminate E.
Qed.

(** X6. GET /api/questions returns the stored questions as they are, in the
    stored order, and writes nothing; on a missing, blank or unparsable file
    it returns the empty list. *)
Theorem listQuestions_returns_the_stored_list (fs : fsys) :
  (forall qs, get_prop (load fs) "questions" = Ret (VArr qs) ->
     run listQuestions fs = (Ret (mkRes 200 (VArr qs)), fs))
  /\ (unreadable fs = true ->
      run listQuestions fs = (Ret (mkRes 200 (VArr [])), fs)).
Proof.
  split.
  - intros qs H. now rewrite run_listQuestions, H.
  - intros H. now rewrite run_listQuestions, (load_unreadable fs H).
Qed.

Lemma run_then {A B} (p : prog A) (f : A -> prog B) (fs fs' : fsys) (a : A) :
  run p fs = (Ret a, fs') -> run (bind p f) fs = run (f a) fs'.
Proof. intros H. now rewrite run_bind, H. Qed.

Lemma run_submit_json (req : request) (now : Z) (iso : string) (fs : fsys)
    (qs : list value) :
  has_body req = true ->
  truthy (field req "question") = true ->
  is_json (load fs) = true ->
  get_prop (load fs) "questions" = Ret (VArr qs) ->
  run (submitQuestion req now iso) fs =
    (Ret (mkRes 200 (VObj [("success", VBool true);
                           ("message", VStr "Question submitted successfully");
                           ("questionId", VNum now)])),
     write (Json (with_prop (load fs) "questions"
              (VArr (qs ++ [jsonify (newQuestion req now iso (field req "name")
                              (field req "email") (field req "question")
                              (field req "timestamp") (field req "ip")
                              (field req "userAgent"))])))) fs).
Proof.
  intros Hb Hq Hj Hqs. rewrite (run_submit req now iso fs qs) by assumption.
  now rewrite jsonify_append by (assumption || apply newQuestion_defined).
Qed.


Lemma findIndex_app (l1 l2 : list value) (id : Z) (n : nat) :
  Forall (fun q => id_matches q id = Ret false) l1 ->
  findIndex (l1 ++ l2) id n = findIndex l2 id (n + length l1).
Proof.
  revert n. induction l1 as [|q l1 IH]; intros n H.
  - simpl. now rewrite Nat.add_0_r.
  - inversion H as [|? ? Hq Hrest]; subst.
    change (((q :: l1) ++ l2)%list) with (q :: (l1 ++ l2))%list.
    rewrite findIndex_cons, Hq. cbn [bind]. rewrite (IH (S n) Hrest).
    f_equal. simpl. lia.
Qed.

(** findIndex selects the first element whose id matches. *)
Lemma findIndex_first (qs : list value) (id : Z) (i : nat) (q : value) :
  Forall (fun q => id_matches q id = Ret false) (take i qs) ->
  qs !! i = Some q ->
  id_matches q id = Ret true ->
  findIndex qs id 0 = Ret (Some i).
Proof.
  intros Hbefore Hi Hq.
  rewrite <- (take_drop_middle qs i q Hi).
  rewrite findIndex_app by exact Hbefore.
  rewrite findIndex_cons, Hq. cbn [bind].
  rewrite length_take. apply lookup_lt_Some in Hi.
  do 2 f_equal. lia.
Qed.

Lemma is_json_collection_app (d : value) (qs : list value) (q : value) :
  is_json d = true -> get_prop d "questions" = Ret (VArr qs) ->
  is_json q = true ->
  is_json (with_prop d "questions" (VArr (qs ++ [q]))) = true.
Proof.
  intros Hd Hqs Hq. apply is_json_with_prop; [assumption|].
  simpl. rewrite forallb_app, (is_json_questions d qs Hd Hqs). simpl.
  now rewrite Hq.
Qed.

(** X8. The id returned by a submission selects the new question: when no
    stored question has the id that a successful submission returns, a like
    sent with that id right after it is answered with likes 1, and the new
    record, the last of the Collection, then has likes 1. *)
Theorem submit_then_like (req req' : request) (now : Z) (iso : string)
    (fs : fsys) (qs : list value) :
  has_body req = true ->
  truthy (field req "question") = true ->
  is_json (load fs) = true ->
  get_prop (load fs) "questions" = Ret (VArr qs) ->
  Forall (fun q => id_matches q now = Ret false) qs ->
  req_id req' = now ->
  let r := run (bind (submitQuestion req now iso) (fun _ => likeQuestion req')) fs in
  r.1 = Ret (mkRes 200 (VObj [("success", VBool true); ("likes", VNum 1)]))
  /\ likes_at (load r.2) (length qs) = VNum 1.
Proof.
  intros Hb Hq Hj Hqs Hnone Hid r. subst r.
  rewrite (run_then _ _ _ _ _ (run_submit_json req now iso fs qs Hb Hq Hj Hqs)).
  set (q := newQuestion req now iso (field req "name") (field req "email")
              (field req "question") (field req "timestamp") (field req "ip")
              (field req "userAgent")).
  set (fs1 := write (Json (with_prop (load fs) "questions"
                             (VArr (qs ++ [jsonify q])))) fs).
  assert (Hoq : exists oq, jsonify q = VObj oq
                  /\ lookup_key oq "id" = VNum now
                  /\ lookup_key oq "likes" = VNum 0).
  { eexists. split; [subst q; unfold newQuestion; apply jsonify_VObj|].
    split; repeat (rewrite lookup_jsonify_fields_cons;
                   cbn [String.eqb Ascii.eqb Bool.eqb]); reflexivity. }
  destruct Hoq as (oq & Eq & Hoid & Holikes).
  assert (Hjq : is_json (jsonify q) = true) by (apply is_json_jsonify; discriminate).
  assert (Hqs1 : get_prop (load fs1) "questions" = Ret (VArr (qs ++ [jsonify q]))).
  { subst fs1. rewrite load_write. now apply (get_prop_with_prop _ _ qs). }
  assert (Hj1 : is_json (load fs1) = true).
  { subst fs1. rewrite load_write. now apply is_json_collection_app. }
  assert (Hfind : findIndex (qs ++ [jsonify q]) (req_id req') 0
                  = Ret (Some (length qs))).
  { rewrite Hid, findIndex_app by exact Hnone. rewrite findIndex_cons.
    unfold id_matches, mbind, prog_bind. rewrite Eq. cbn [get_prop bind].
    rewrite Hoid. cbn [loose_eq bind]. now rewrite Z.eqb_refl. }
  assert (Hi : ((qs ++ [jsonify q])%list : list value) !! length qs = Some (VObj oq)).
  { rewrite Eq. apply list_lookup_middle. reflexivity. }
  assert (Hf : truthy (lookup_key oq "likes") = false) by now rewrite Holikes.
  rewrite (run_like_json req' fs1 (qs ++ [jsonify q]) (length qs) oq 0
             Hj1 Hqs1 Hfind Hi (or_introl (conj Hf eq_refl)) zero_is_safe).
  split; [reflexivity|]. cbn [snd]. rewrite load_write.
  rewrite likes_at_replace; [apply lookup_assign_eq|exact Hqs1|].
  rewrite length_app. simpl. lia.
Qed.








(** ** Two submissions in flight *)




(** ** File-system calls per request *)

Lemma within_submitQuestion (req : request) (now : Z) (iso : string) :
  within 2 (submitQuestion req now iso).
Proof.
  unfold submitQuestion, mbind, prog_bind.
  apply within_try_catch; [|reflexivity].
  do 6 (apply within_bind_pure; [auto with calls|]; intros ?).
  destruct (negb (truthy _)); [now apply within_final|].
  apply (within_bind 1 1); [apply within_readQuestionsFile|]. intros d.
  apply within_bind_pure; [auto with calls|]. intros questions.
  apply within_bind_pure; [auto with calls|]. intros qs.
  apply (within_bind 1 0); [apply within_writeQuestionsFile|]. intros _.
  apply (within_bind_pure 0); [auto with calls|]. reflexivity.
Qed.

Lemma within_addAnswer (req : request) (now : Z) (iso iso' : string) :
  within 2 (addAnswer req now iso iso').
Proof.
  unfold addAnswer, mbind, prog_bind.
  apply within_try_catch; [|reflexivity].
  do 3 (apply within_bind_pure; [auto with calls|]; intros ?).
  destruct (negb (truthy _)); [now apply within_final|].
  apply (within_bind 1 1); [apply within_readQuestionsFile|]. intros d.
  apply within_bind_pure; [auto with calls|]. intros questions.
  apply within_bind_pure; [auto with calls|]. intros qs.
  apply within_bind_pure; [auto with calls|]. intros [i|];
    [|now apply within_final].
  apply within_bind_pure; [auto with calls|]. intros answers.
  apply within_bind_pure;
    [destruct (negb (truthy answers)); simpl; auto with calls|]. intros q.
  apply within_bind_pure; [auto with calls|]. intros answers'.
  apply within_bind_pure; [auto with calls|]. intros l.
  apply within_bind_pure.
  { destruct (truthy _); [|reflexivity].
    destruct (with_prop q "answers" _); reflexivity. }
  intros q'.
  apply (within_bind 1 0); [apply within_writeQuestionsFile|]. intros _.
  reflexivity.
Qed.

(** X14. Every request is served with at most two calls on the file, a read
    and a write, and a listing with one; start-up makes at most two.  This
    holds whatever the file holds when each call is made, so also when other
    requests change the file in between. *)
Theorem handlers_make_at_most_two_calls (req : request) (now : Z)
    (iso iso' : string) :
  within 2 (submitQuestion req now iso)
  /\ within 1 listQuestions
  /\ within 2 (addAnswer req now iso iso')
  /\ within 2 (likeQuestion req)
  /\ within 2 startServer.
Proof.
  split; [apply within_submitQuestion|].
  split.
  { unfold listQuestions, mbind, prog_bind.
    apply within_try_catch; [|reflexivity].
    apply (within_bind 1 0); [apply within_readQuestionsFile|]. intros d.
    apply (within_bind_pure 0); [auto with calls|]. reflexivity. }
  split; [apply within_addAnswer|].
  split; [apply within_likeQuestion|].
  intros fs fs'. simpl. destruct (bool_decide _); reflexivity.
Qed.

(** X15. On a file that is missing, blank or unparsable, a like and an answer
    with content are answered with 404, as on an empty Collection, and the
    file is left as it is: it is neither created nor repaired. *)
Theorem unreadable_store_has_no_question (req : request) (now : Z)
    (iso iso' : string) (fs : fsys) :
  unreadable fs = true ->
  run (likeQuestion req) fs = (Ret (failure 404 "Question not found"), fs)
  /\ (has_body req = true -> truthy (field req "answer") = true ->
      run (addAnswer req now iso iso') fs =
        (Ret (failure 404 "Question not found"), fs)).
Proof.
  intros Hu. pose proof (load_unreadable fs Hu) as Hl.
  assert (Hqs : get_prop (load fs) "questions" = Ret (VArr [])) by now rewrite Hl.
  split; [now apply (run_like_not_found req fs [])|].
  intros Hb Ha. now apply (run_answer_not_found req now iso iso' fs []).
Qed.

(** ** Requests that read during a write *)

Lemma writer_begins (d : value) (res : response) :
  d <> VUndefined ->
  Running (_ ← writeQuestionsFile d; Ret res)
  = Running (WriteFile (Json (jsonify d)) (Ret res)).
Proof.
  intros Hd. unfold writeQuestionsFile, JSON_stringify, mbind, prog_bind.
  destruct d; try reflexivity. now contradiction Hd.
Qed.

(** X17. A submission that reads during a write loses the store.  When a
    submission reads the file while another request is rewriting it, after
    the file is emptied and before the text is written, it takes the store
    for empty.  Both requests are answered with 200, and the file ends up
    holding the record of the submission alone, whatever the other request
    wrote and whatever the file held before. *)
Theorem submission_during_a_write_loses_the_store (s : submission) (d : value)
    (res : response) (fs : fsys) :
  has_body (sub_req s) = true ->
  truthy (field (sub_req s) "question") = true ->
  d <> VUndefined ->
  let writer := Running (_ ← writeQuestionsFile d; Ret res) in
  let r := exec_fine [0; 1; 0; 1; 1]%nat [writer; Running (submit s)] fs in
  r.1 = [Running (Ret res);
         Running (Ret (mkRes 200
                         (VObj [("success", VBool true);
                                ("message", VStr "Question submitted successfully");
                                ("questionId", VNum (sub_now s))])))]
  /\ load r.2 =
       collection_of
         [jsonify (newQuestion (sub_req s) (sub_now s) (sub_iso s)
                     (field (sub_req s) "name") (field (sub_req s) "email")
                     (field (sub_req s) "question")
                     (field (sub_req s) "timestamp") (field (sub_req s) "ip")
                     (field (sub_req s) "userAgent"))].
Proof.
  intros Hb Hq Hd writer r. subst r writer. rewrite (writer_begins d res Hd).
  unfold submit, submitQuestion, mbind, prog_bind.
  rewrite !get_prop_field by assumption. cbn [bind]. rewrite Hq. cbn [negb].
  split; reflexivity.
Qed.

(** X18. A like or an answer that reads during a write finds no question.
    When a like, or an answer with content, reads the file while another
    request is rewriting it, after the file is emptied and before the text is
    written, it is answered with 404 whatever id it names, also the id of a
    question that the file held before and holds afterwards; the write of the
    other request then completes as if alone. *)
Theorem lookup_during_a_write_finds_nothing (req : request) (now : Z)
    (iso iso' : string) (d : value) (res : response) (fs : fsys) :
  d <> VUndefined ->
  let writer := Running (_ ← writeQuestionsFile d; Ret res) in
  let done := fun reply : response =>
    ([Running (Ret res); Running (Ret reply)], write (Json (jsonify d)) fs) in
  exec_fine [0; 1; 0]%nat [writer; Running (likeQuestion req)] fs
    = done (failure 404 "Question not found")
  /\ (has_body req = true -> truthy (field req "answer") = true ->
      exec_fine [0; 1; 0]%nat [writer; Running (addAnswer req now iso iso')] fs
        = done (failure 404 "Question not found")).
Proof.
  intros Hd writer done. subst writer done. rewrite (writer_begins d res Hd).
  split.
  - reflexivity.
  - intros Hb Ha. unfold addAnswer, mbind, prog_bind.
    rewrite !get_prop_field by assumption. cbn [bind]. rewrite Ha. cbn [negb].
    reflexivity.
Qed.

(** ** The further properties on concrete stores *)

Lemma handlers_catch_every_exception_witness :
  exists res,
    (run (addAnswer (request_of [("answer", VStr "Because.")] 7) 1 "t0" "t1")
       (store_of VNull)).1 = Ret res
    /\ (status res = 200 \/ status res = 400 \/ status res = 404 \/
        status res = 500).
Proof.
  destruct (handlers_catch_every_exception
              (request_of [("answer", VStr "Because.")] 7) 1 "t0" "t1"
              (store_of VNull)) as (_ & _ & H & _).
  exact H.
Defined.

Lemma failed_request_writes_nothing_witness :
  (run (likeQuestion (request_of [] 9999999))
     (store_of (collection_of [VObj liked5]))).1
  = Ret (failure 404 "Question not found")
  /\ (run (likeQuestion (request_of [] 9999999))
        (store_of (collection_of [VObj liked5]))).2
     = store_of (collection_of [VObj liked5]).
Proof.
  destruct (failed_request_writes_nothing (request_of [] 9999999) 1 "t0" "t1"
              (store_of (collection_of [VObj liked5]))) as (_ & _ & H & _).
  split; [reflexivity|].
  apply (H (failure 404 "Question not found") eq_refl). right. reflexivity.
Defined.

Lemma successful_request_writes_a_collection_witness :
  exists d l,
    (run (likeQuestion (request_of [] 7))
       (store_of (collection_of [VObj liked5]))).2
    = write (Json d) (store_of (collection_of [VObj liked5]))
    /\ get_prop d "questions" = Ret (VArr l).
Proof.
  destruct (successful_request_writes_a_collection (request_of [] 7) 1 "t0" "t1"
              (store_of (collection_of [VObj liked5]))) as (_ & _ & [H|H]).
  - destruct (H _ eq_refl eq_refl) as (d & l & E & _ & Hg & _).
    exists d, l. split; [exact E | exact Hg].
  - exfalso. destruct H as (qs & i & o & Hq & Hf & Hi & _ & Hn).
    injection Hq as <-. vm_compute in Hf. injection Hf as <-.
    injection Hi as <-. vm_compute in Hn. discriminate Hn.
Defined.


Lemma startServer_keeps_the_collection_witness :
  (run startServer (store_of (collection_of [VObj liked5]))).2
  = store_of (collection_of [VObj liked5]).
Proof.
  destruct (startServer_keeps_the_collection
              (store_of (collection_of [VObj liked5]))) as (_ & _ & H & _).
  exact (H _ eq_refl).
Defined.

Lemma listQuestions_returns_the_stored_list_witness :
  run listQuestions (store_of (collection_of [VObj liked5; VObj never_liked]))
  = (Ret (mkRes 200 (VArr [VObj liked5; VObj never_liked])),
     store_of (collection_of [VObj liked5; VObj never_liked]))
  /\ run listQuestions no_file = (Ret (mkRes 200 (VArr [])), no_file).
Proof.
  split.
  - exact (proj1 (listQuestions_returns_the_stored_list
                    (store_of (collection_of [VObj liked5; VObj never_liked])))
             _ eq_refl).
  - exact (proj2 (listQuestions_returns_the_stored_list no_file) eq_refl).
Defined.


Lemma submit_then_like_witness :
  (run (bind (submitQuestion ask_why 1700000000000 "t0")
          (fun _ => likeQuestion (request_of [] 1700000000000)))
     (store_of (collection_of [VObj liked5]))).1
  = Ret (mkRes 200 (VObj [("success", VBool true); ("likes", VNum 1)])).
Proof.
  refine (proj1 (submit_then_like ask_why (request_of [] 1700000000000)
                   1700000000000 "t0" (store_of (collection_of [VObj liked5]))
                   [VObj liked5] eq_refl eq_refl eq_refl eq_refl _ eq_refl)).
  repeat constructor.
Defined.





Lemma unreadable_store_has_no_question_witness :
  run (likeQuestion (request_of [] 7)) (mkFs (Some (Unparsable "{")) [])
  = (Ret (failure 404 "Question not found"), mkFs (Some (Unparsable "{")) [])
  /\ run (addAnswer (request_of [("answer", VStr "x")] 7) 1 "t1" "t2") no_file
     = (Ret (failure 404 "Question not found"), no_file).
Proof.
  split.
  - exact (proj1 (unreadable_store_has_no_question (request_of [] 7) 1 "t1" "t2"
                    (mkFs (Some (Unparsable "{")) []) eq_refl)).
  - exact (proj2 (unreadable_store_has_no_question
                    (request_of [("answer", VStr "x")] 7) 1 "t1" "t2"
                    no_file eq_refl) eq_refl eq_refl).
Defined.

Lemma submission_during_a_write_loses_the_store_witness :
  let r := exec_fine [0; 1; 0; 1; 1]%nat
             [Running (_ ← writeQuestionsFile
                             (collection_of [VObj liked5; VObj never_liked]);
                       Ret (mkRes 200 (VObj [("success", VBool true)])));
              Running (submit (mkSub ask_why 1700000000000 "t0"))]
             (store_of (collection_of [VObj liked5])) in
  exists q,
    load r.2 = collection_of [q]
    /\ get_prop q "question" = Ret (VStr "Why?")
    /\ get_prop q "id" = Ret (VNum 1700000000000).
Proof.
  cbv zeta.
  assert (Hd : collection_of [VObj liked5; VObj never_liked] <> VUndefined)
    by discriminate.
  destruct (submission_during_a_write_loses_the_store
              (mkSub ask_why 1700000000000 "t0")
              (collection_of [VObj liked5; VObj never_liked])
              (mkRes 200 (VObj [("success", VBool true)]))
              (store_of (collection_of [VObj liked5]))
              eq_refl eq_refl Hd) as [_ H].
  eexists. split; [exact H|]. split; reflexivity.
Defined.

Lemma lookup_during_a_write_finds_nothing_witness :
  let d := collection_of [VObj (assign_key liked5 "status" (VStr "answered"))] in
  let fs := store_of (collection_of [VObj liked5]) in
  exec_fine [0; 1; 0]%nat
    [Running (_ ← writeQuestionsFile d;
              Ret (mkRes 200 (VObj [("success", VBool true)])));
     Running (likeQuestion (request_of [] 7))] fs
  = ([Running (Ret (mkRes 200 (VObj [("success", VBool true)])));
      Running (Ret (failure 404 "Question not found"))],
     write (Json d) fs).
Proof.
  cbv zeta.
  assert (Hd : collection_of [VObj (assign_key liked5 "status" (VStr "answered"))]
               <> VUndefined) by discriminate.
  exact (proj1 (lookup_during_a_write_finds_nothing (request_of [] 7) 1 "t1" "t2"
                  (collection_of [VObj (assign_key liked5 "status" (VStr "answered"))])
                  (mkRes 200 (VObj [("success", VBool true)]))
                  (store_of (collection_of [VObj liked5])) Hd)).
Defined.
